(** * Candlestick pattern detectors of conix

    A shallow embedding of
    [backend/algorithms/pattern_recognition/candlestick.py] together with
    the bar predicates it imports from [backend/algorithms/tools], and the
    properties of the five detectors.

    Prices are rational numbers: the detectors only compare prices with
    [<], [>] and [==], and on finite floating-point values these
    comparisons are the comparisons of the rationals they denote.

    A pandas positional access can raise [IndexError]; Python's [and]
    evaluates its right operand only when the left one is true.  Both are
    kept: every detector returns a [result bool]. *)

From Stdlib Require Import String Ascii ZArith QArith List Bool Lia.
Import ListNotations.

Local Open Scope Z_scope.

(** ** Results of fallible calls *)

Inductive result (A : Type) : Type :=
| Ok (a : A)
| IndexError.

Arguments Ok {A} a.
Arguments IndexError {A}.

Definition bind {A B : Type} (x : result A) (f : A -> result B) : result B :=
  match x with
  | Ok a => f a
  | IndexError => IndexError
  end.

Notation "x <- c ;; k" := (bind c (fun x => k))
  (at level 61, c at next level, right associativity).

(** Python's [x and y] on booleans: [y] is looked at only when [x] is true. *)
Definition and_then (x y : result bool) : result bool :=
  b <- x ;; if b then y else Ok false.

Infix "&&&" := and_then (at level 40, left associativity).

(** ** Bars and series *)

Inductive Column : Type := Open | High | Low | Close.

Record Bar : Type := mkBar {
  bar_open : Q;
  bar_high : Q;
  bar_low : Q;
  bar_close : Q
}.

(** [row[column]] *)
Definition item (row : Bar) (column : Column) : Q :=
  match column with
  | Open => bar_open row
  | High => bar_high row
  | Low => bar_low row
  | Close => bar_close row
  end.

Definition DataFrame : Type := list Bar.

Definition len (data : DataFrame) : Z := Z.of_nat (length data).

(** [a < b] and [a == b] on prices; [a > b] is [Qltb b a]. *)
Definition Qltb (a b : Q) : bool := negb (Qle_bool b a).
Definition Qgtb (a b : Q) : bool := Qltb b a.

(** [data.iloc[i]]: a negative position counts from the end, a position
    outside [-len .. len-1] raises. *)
Definition iloc (data : DataFrame) (i : Z) : result Bar :=
  let j := if i <? 0 then len data + i else i in
  if j <? 0 then IndexError
  else match nth_error data (Z.to_nat j) with
       | Some row => Ok row
       | None => IndexError
       end.

(** [range(start, stop, -1)] *)
Definition range_down (start stop : Z) : list Z :=
  map (fun k => start - Z.of_nat k) (seq 0 (Z.to_nat (start - stop))).

(** [range(start, stop)] *)
Definition range_up (start stop : Z) : list Z :=
  map (fun k => start + Z.of_nat k) (seq 0 (Z.to_nat (stop - start))).

(** ** The bar predicates of [tools] *)

Module tools.

(** Modelled from the spec: the module [backend/algorithms/tools] is not
    among the sources.  Its predicates read a bar through [bar_at]: a
    position before the start of the series makes the predicate answer
    [false] (spec 4.1, failure semantics), a position past the end is the
    caller's misuse and raises (spec 7). *)
Inductive lookup : Type :=
| Found (row : Bar)
| BeforeStart
| PastEnd.

(** Modelled from the spec: how a predicate of [tools] finds bar [i]. *)
Definition bar_at (data : DataFrame) (i : Z) : lookup :=
  if i <? 0 then BeforeStart
  else match nth_error data (Z.to_nat i) with
       | Some row => Found row
       | None => PastEnd
       end.

(** Modelled from the spec: run [k] on the bar at [i]; a bar before the
    start answers [false], a bar past the end raises. *)
Definition with_bar (data : DataFrame) (i : Z) (k : Bar -> result bool)
  : result bool :=
  match bar_at data i with
  | Found row => k row
  | BeforeStart => Ok false
  | PastEnd => IndexError
  end.

(** Modelled from the spec: [is_black_candle(series, i)] is true iff
    [close[i] < open[i]]. *)
Definition is_black_candle (data : DataFrame) (index : Z) : result bool :=
  with_bar data index (fun row => Ok (Qltb (item row Close) (item row Open))).

(** Modelled from the spec: [is_white_candle(series, i)] is true iff
    [close[i] > open[i]]. *)
Definition is_white_candle (data : DataFrame) (index : Z) : result bool :=
  with_bar data index (fun row => Ok (Qgtb (item row Close) (item row Open))).

(** Modelled from the spec: one step of the walk of [is_lower_lows], is
    the low of bar [i] strictly below the low of bar [i - 1]? *)
Definition lower_low (data : DataFrame) (i : Z) : result bool :=
  with_bar data (i - 1) (fun prev =>
  with_bar data i (fun row =>
  Ok (Qltb (item row Low) (item prev Low)))).

(** Modelled from the spec: the walk stops at the first step that is
    not [true]. *)
Fixpoint all_then (steps : list (result bool)) : result bool :=
  match steps with
  | [] => Ok true
  | s :: rest => s &&& all_then rest
  end.

(** Modelled from the spec: [is_lower_lows(series, start, end)] walks from
    [start] to [end] inclusive and is true iff each bar's low is strictly
    less than the previous bar's low; a window of zero length is true. *)
Definition is_lower_lows (data : DataFrame) (starting_index ending_index : Z)
  : result bool :=
  all_then (map (lower_low data)
                (range_up (starting_index + 1) (ending_index + 1))).

(** Modelled from the spec: [is_gap(series, i)] is true iff there is a price
    gap between bar [i-1] and bar [i]; its one caller asks for a gap down,
    [high[i] < low[i-1]]. *)
Definition is_gap (data : DataFrame) (index : Z) : result bool :=
  with_bar data (index - 1) (fun prev =>
  with_bar data index (fun row =>
  Ok (Qltb (item row High) (item prev Low)))).

(** Modelled from the spec: the bars of [[i-period+1, i]], clipped at the
    start of the series. *)
Definition window (data : DataFrame) (index period : Z) : list Bar :=
  skipn (Z.to_nat (Z.max 0 (index - period + 1)))
        (firstn (Z.to_nat (index + 1)) data).

(** Modelled from the spec: [is_top(series, i, field, period)] is true iff
    bar [i] holds the maximum of [field] over the trailing window of
    [period] bars ending at [i], clipped at the start of the series; a tie
    counts as a match. *)
Definition is_top (data : DataFrame) (index : Z) (column : Column) (period : Z)
  : result bool :=
  with_bar data index (fun row =>
  Ok (forallb (fun other => Qle_bool (item other column) (item row column))
              (window data index period))).

End tools.

Import tools.

(** ** The pattern detectors of [candlestick] *)

Definition three_line_strike (data : DataFrame) (index : Z) : result bool :=
  if index <? 3 then Ok false
  else
    is_lower_lows data (index - 3) index
    &&& is_black_candle data (index - 3)
    &&& is_black_candle data (index - 2)
    &&& is_black_candle data (index - 1)
    &&& is_white_candle data index
    &&& (prev <- iloc data (index - 1) ;; row <- iloc data index ;;
         Ok (Qgtb (item prev Close) (item row Open)))
    &&& (row <- iloc data index ;; first <- iloc data (index - 3) ;;
         Ok (Qgtb (item row Close) (item first High)))
    &&& (row <- iloc data index ;; row' <- iloc data index ;;
         Ok (Qeq_bool (item row Open) (item row' Low))).

Definition three_line_strike_simplified (data : DataFrame) (index : Z)
  : result bool :=
  if index <? 3 then Ok false
  else
    is_lower_lows data (index - 3) index
    &&& is_black_candle data (index - 3)
    &&& is_black_candle data (index - 2)
    &&& is_black_candle data (index - 1)
    &&& is_white_candle data index
    &&& (row <- iloc data index ;; first <- iloc data (index - 3) ;;
         Ok (Qgtb (item row Close) (item first High))).

Definition two_black_gapping (data : DataFrame) (index : Z) : result bool :=
  if index <? 3 then Ok false
  else
    is_top data (index - 3) Close 7
    &&& is_black_candle data (index - 2)
    &&& is_black_candle data (index - 1)
    &&& is_black_candle data index
    &&& is_gap data (index - 1)
    &&& is_lower_lows data (index - 1) index.

Definition two_black_gapping_simplified (data : DataFrame) (index : Z)
  : result bool :=
  if index <? 3 then Ok false
  else
    is_top data (index - 3) Close 7
    &&& is_black_candle data (index - 2)
    &&& is_black_candle data (index - 1)
    &&& is_black_candle data index
    &&& is_lower_lows data (index - 1) index.

(** The indices visited by the scan of [three_black_crows]:
    [range(starting_index, starting_index - high_range, -1)] with
    [starting_index = index - 3]. *)
Definition scan_indices (index high_range : Z) : list Z :=
  let starting_index := index - 3 in
  range_down starting_index (starting_index - high_range).

(** The loop [is_near_high |= is_top(data, i, "High", 5)]: every call of
    [is_top] is made, whatever the flag already holds. *)
Definition near_high_scan (data : DataFrame) (indices : list Z) : result bool :=
  fold_left (fun flag i =>
               is_near_high <- flag ;;
               top <- is_top data i High 5 ;;
               Ok (is_near_high || top))
            indices (Ok false).

Definition three_black_crows (data : DataFrame) (index high_range : Z)
  : result bool :=
  is_near_high <- near_high_scan data (scan_indices index high_range) ;;
  Ok is_near_high
  &&& is_black_candle data (index - 2)
  &&& is_black_candle data (index - 1)
  &&& is_black_candle data index
  &&& is_lower_lows data (index - 1) index.

(** The default of the parameter [high_range]. *)
Definition default_high_range : Z := 5.

(** ** Vocabulary of the statements *)

(** The bar at a valid position [0 <= i < len data], and one of its prices.
    Outside the series the value is a placeholder that no statement below
    relies on. *)
Definition row_at (data : DataFrame) (i : Z) : Bar :=
  nth (Z.to_nat i) data (mkBar 0 0 0 0).

Definition price (data : DataFrame) (i : Z) (column : Column) : Q :=
  item (row_at data i) column.

Definition black (data : DataFrame) (i : Z) : Prop :=
  (price data i Close < price data i Open)%Q.

Definition white (data : DataFrame) (i : Z) : Prop :=
  (price data i Close > price data i Open)%Q.

Definition doji (data : DataFrame) (i : Z) : Prop :=
  (price data i Close == price data i Open)%Q.

(** Bar [i] holds the maximum of [column] over the [period] bars ending at
    [i], as far as the series reaches back. *)
Definition holds_max (data : DataFrame) (i : Z) (column : Column) (period : Z)
  : Prop :=
  forall j, Z.max 0 (i - period + 1) <= j <= i ->
            (price data j column <= price data i column)%Q.

(** The boolean counterparts, as the predicates of [tools] compute them on
    valid positions. *)
Definition blackb (data : DataFrame) (i : Z) : bool :=
  Qltb (price data i Close) (price data i Open).

Definition whiteb (data : DataFrame) (i : Z) : bool :=
  Qgtb (price data i Close) (price data i Open).

Definition lowerb (data : DataFrame) (i : Z) : bool :=
  Qltb (price data i Low) (price data (i - 1) Low).

Definition gapb (data : DataFrame) (i : Z) : bool :=
  Qltb (price data i High) (price data (i - 1) Low).

Definition topb (data : DataFrame) (i : Z) (column : Column) (period : Z)
  : bool :=
  forallb (fun other => Qle_bool (item other column) (price data i column))
          (window data i period).

(** [data] with the low of bar [k] replaced by [v]. *)
Definition with_low (row : Bar) (v : Q) : Bar :=
  mkBar (bar_open row) (bar_high row) v (bar_close row).

Fixpoint replace_low (data : DataFrame) (k : nat) (v : Q) : DataFrame :=
  match data, k with
  | [], _ => []
  | row :: rest, O => with_low row v :: rest
  | row :: rest, S k' => row :: replace_low rest k' v
  end.

Definition set_low (data : DataFrame) (k : Z) (v : Q) : DataFrame :=
  if k <? 0 then data else replace_low data (Z.to_nat k) v.

(** A bar given by four integer prices, for the concrete series. *)
Definition bar (o h l c : Z) : Bar :=
  mkBar (inject_Z o) (inject_Z h) (inject_Z l) (inject_Z c).

(** ** The detectors as programs on a mutable world

    A Python call can do more than compute: it can assign into the
    [DataFrame] object its argument refers to, and it can assign to a
    module-level variable that a later call reads.  The world below holds
    both.  A program takes the world, returns its result or an error, and
    hands the world on as it leaves it; an error keeps what was changed
    before it was raised. *)

Inductive Call : Type :=
| CallThreeLineStrike (index : Z)
| CallThreeLineStrikeSimplified (index : Z)
| CallTwoBlackGapping (index : Z)
| CallTwoBlackGappingSimplified (index : Z)
| CallThreeBlackCrows (index high_range : Z).

(** The detectors above, as functions of the series and the arguments. *)
Definition detect (data : DataFrame) (c : Call) : result bool :=
  match c with
  | CallThreeLineStrike index => three_line_strike data index
  | CallThreeLineStrikeSimplified index =>
      three_line_strike_simplified data index
  | CallTwoBlackGapping index => two_black_gapping data index
  | CallTwoBlackGappingSimplified index =>
      two_black_gapping_simplified data index
  | CallThreeBlackCrows index high_range =>
      three_black_crows data index high_range
  end.

Module Effectful.

Record World : Type := mkWorld {
  frame : DataFrame;
  globals : list (string * Z)
}.

Definition Eff (A : Type) : Type := World -> result A * World.

Definition ret {A : Type} (a : A) : Eff A := fun w => (Ok a, w).

Definition bind {A B : Type} (x : Eff A) (f : A -> Eff B) : Eff B :=
  fun w =>
    match x w with
    | (Ok a, w') => f a w'
    | (IndexError, w') => (IndexError, w')
    end.

Declare Scope eff_scope.
Delimit Scope eff_scope with eff.

Notation "x <- c ;; k" := (bind c (fun x => k))
  (at level 61, c at next level, right associativity) : eff_scope.

(** Python's [x and y]: the program [y] runs only when [x] gave [True]. *)
Definition and_then (x y : Eff bool) : Eff bool :=
  bind x (fun b => if b then y else ret false).

Infix "&&&" := and_then (at level 40, left associativity) : eff_scope.

Local Open Scope eff_scope.

(** [data.iloc[i]], a read. *)
Definition read_iloc (i : Z) : Eff Bar :=
  fun w => (iloc (frame w) i, w).

(** [name = value] on a module-level variable, a write.  No statement of
    [candlestick.py] is one. *)
Definition assign_global (name : string) (value : Z) : Eff unit :=
  fun w => (Ok tt, mkWorld (frame w) ((name, value) :: globals w)).

(** Modelled from the spec: a call of a predicate of [tools] reads the
    series and changes nothing (spec 2: stateless functions). *)
Definition call_tools {A : Type} (f : DataFrame -> result A) : Eff A :=
  fun w => (f (frame w), w).

Definition is_black_candle (index : Z) : Eff bool :=
  call_tools (fun data => tools.is_black_candle data index).

Definition is_white_candle (index : Z) : Eff bool :=
  call_tools (fun data => tools.is_white_candle data index).

Definition is_lower_lows (starting_index ending_index : Z) : Eff bool :=
  call_tools (fun data =>
                tools.is_lower_lows data starting_index ending_index).

Definition is_gap (index : Z) : Eff bool :=
  call_tools (fun data => tools.is_gap data index).

Definition is_top (index : Z) (column : Column) (period : Z) : Eff bool :=
  call_tools (fun data => tools.is_top data index column period).

Definition three_line_strike (index : Z) : Eff bool :=
  if index <? 3 then ret false
  else
    is_lower_lows (index - 3) index
    &&& is_black_candle (index - 3)
    &&& is_black_candle (index - 2)
    &&& is_black_candle (index - 1)
    &&& is_white_candle index
    &&& (prev <- read_iloc (index - 1) ;; row <- read_iloc index ;;
         ret (Qgtb (item prev Close) (item row Open)))
    &&& (row <- read_iloc index ;; first <- read_iloc (index - 3) ;;
         ret (Qgtb (item row Close) (item first High)))
    &&& (row <- read_iloc index ;; row' <- read_iloc index ;;
         ret (Qeq_bool (item row Open) (item row' Low))).

Definition three_line_strike_simplified (index : Z) : Eff bool :=
  if index <? 3 then ret false
  else
    is_lower_lows (index - 3) index
    &&& is_black_candle (index - 3)
    &&& is_black_candle (index - 2)
    &&& is_black_candle (index - 1)
    &&& is_white_candle index
    &&& (row <- read_iloc index ;; first <- read_iloc (index - 3) ;;
         ret (Qgtb (item row Close) (item first High))).

Definition two_black_gapping (index : Z) : Eff bool :=
  if index <? 3 then ret false
  else
    is_top (index - 3) Close 7
    &&& is_black_candle (index - 2)
    &&& is_black_candle (index - 1)
    &&& is_black_candle index
    &&& is_gap (index - 1)
    &&& is_lower_lows (index - 1) index.

Definition two_black_gapping_simplified (index : Z) : Eff bool :=
  if index <? 3 then ret false
  else
    is_top (index - 3) Close 7
    &&& is_black_candle (index - 2)
    &&& is_black_candle (index - 1)
    &&& is_black_candle index
    &&& is_lower_lows (index - 1) index.

(** The local [is_near_high] starts at [False] on every call and is
    gone when the call returns. *)
Definition near_high_scan (indices : list Z) : Eff bool :=
  fold_left (fun flag i =>
               is_near_high <- flag ;;
               top <- is_top i High 5 ;;
               ret (is_near_high || top))
            indices (ret false).

Definition three_black_crows (index high_range : Z) : Eff bool :=
  is_near_high <- near_high_scan (scan_indices index high_range) ;;
  ret is_near_high
  &&& is_black_candle (index - 2)
  &&& is_black_candle (index - 1)
  &&& is_black_candle index
  &&& is_lower_lows (index - 1) index.

Definition call (c : Call) : Eff bool :=
  match c with
  | CallThreeLineStrike index => three_line_strike index
  | CallThreeLineStrikeSimplified index => three_line_strike_simplified index
  | CallTwoBlackGapping index => two_black_gapping index
  | CallTwoBlackGappingSimplified index => two_black_gapping_simplified index
  | CallThreeBlackCrows index high_range => three_black_crows index high_range
  end.

(** A caller makes the calls in order on the one world, catching the
    error of a call before making the next; the answers come back in call
    order together with the world as the last call left it. *)
Fixpoint run (calls : list Call) (w : World) : list (result bool) * World :=
  match calls with
  | [] => ([], w)
  | c :: rest =>
      let (answer, w') := call c w in
      let (answers, w'') := run rest w' in
      (answer :: answers, w'')
  end.

(** The program [p] leaves every world as it found it and returns what
    the function [f] gives on the series of that world. *)
Definition computes {A : Type} (p : Eff A) (f : DataFrame -> result A)
  : Prop :=
  forall w, p w = (f (frame w), w).

End Effectful.

(** ** What the detectors compute on valid positions

    On a position whose whole window lies in the series no access fails and
    a detector returns the conjunction of its conditions, in source order. *)

Definition three_line_strike_simplified_value (data : DataFrame) (index : Z)
  : bool :=
  forallb (lowerb data) [index - 2; index - 1; index]
  && blackb data (index - 3)
  && blackb data (index - 2)
  && blackb data (index - 1)
  && whiteb data index
  && Qgtb (price data index Close) (price data (index - 3) High).

Definition three_line_strike_value (data : DataFrame) (index : Z) : bool :=
  forallb (lowerb data) [index - 2; index - 1; index]
  && blackb data (index - 3)
  && blackb data (index - 2)
  && blackb data (index - 1)
  && whiteb data index
  && Qgtb (price data (index - 1) Close) (price data index Open)
  && Qgtb (price data index Close) (price data (index - 3) High)
  && Qeq_bool (price data index Open) (price data index Low).

Definition two_black_gapping_simplified_value (data : DataFrame) (index : Z)
  : bool :=
  topb data (index - 3) Close 7
  && blackb data (index - 2)
  && blackb data (index - 1)
  && blackb data index
  && forallb (lowerb data) [index].

Definition two_black_gapping_value (data : DataFrame) (index : Z) : bool :=
  topb data (index - 3) Close 7
  && blackb data (index - 2)
  && blackb data (index - 1)
  && blackb data index
  && gapb data (index - 1)
  && forallb (lowerb data) [index].

Definition three_black_crows_value (data : DataFrame) (index high_range : Z)
  : bool :=
  existsb (fun i => (0 <=? i) && topb data i High 5)
          (scan_indices index high_range)
  && blackb data (index - 2)
  && blackb data (index - 1)
  && blackb data index
  && forallb (lowerb data) [index].

(** ** Conditions of the patterns *)

(** [data.iloc[index - 1]["Close"] > data.iloc[index]["Open"]] *)
Definition previous_close_above_open (data : DataFrame) (index : Z)
  : result bool :=
  prev <- iloc data (index - 1) ;; row <- iloc data index ;;
  Ok (Qgtb (item prev Close) (item row Open)).

(** [data.iloc[index]["Open"] == data.iloc[index]["Low"]] *)
Definition open_equals_low (data : DataFrame) (index : Z) : result bool :=
  row <- iloc data index ;; row' <- iloc data index ;;
  Ok (Qeq_bool (item row Open) (item row' Low)).

(** The conditions of the three line strike as its table row words them:
    lower lows across the first three bars only. *)
Definition three_line_strike_stated (data : DataFrame) (index : Z) : Prop :=
  (price data (index - 2) Low < price data (index - 3) Low)%Q /\
  (price data (index - 1) Low < price data (index - 2) Low)%Q /\
  black data (index - 3) /\
  black data (index - 2) /\
  black data (index - 1) /\
  white data index /\
  (price data index Close > price data (index - 3) High)%Q /\
  (price data (index - 1) Close > price data index Open)%Q /\
  (price data index Open == price data index Low)%Q.

(** Some bar visited by the scan, inside the series, holds the maximum of
    [High] over its 5-bar window: the visited bars are the [high_range]
    bars ending at [index-3], that bar included. *)
Definition near_high (data : DataFrame) (index high_range : Z) : Prop :=
  exists i, index - 3 - high_range < i <= index - 3 /\ 0 <= i /\
            holds_max data i High 5.

(** The same search over the [high_range] bars before bar [index-3]. *)
Definition near_high_before (data : DataFrame) (index high_range : Z) : Prop :=
  exists i, index - 3 - high_range <= i < index - 3 /\ 0 <= i /\
            holds_max data i High 5.

(** Three bearish bars ending at [index], the last with a lower low. *)
Definition crows_shape (data : DataFrame) (index : Z) : Prop :=
  black data (index - 2) /\
  black data (index - 1) /\
  black data index /\
  (price data index Low < price data (index - 1) Low)%Q.

(** ** Concrete series *)

(** Three bearish bars with falling lows, then a bullish bar that opens at
    its low, below the third bar's low, and closes above the first high. *)
Definition strike_series : DataFrame :=
  [bar 20 21 15 16; bar 16 17 12 13; bar 13 14 9 10; bar 8 25 8 24].

(** As [strike_series], but the last bar's low is below its open. *)
Definition strike_open_above_low : DataFrame :=
  [bar 20 21 15 16; bar 16 17 12 13; bar 13 14 9 10; bar 8 25 7 24].

(** As [strike_series], but the last bar's low is the third bar's low. *)
Definition strike_last_low_not_lower : DataFrame :=
  [bar 20 21 15 16; bar 16 17 12 13; bar 13 14 9 10; bar 9 25 9 24].

(** Three bearish bars with falling lows and nothing before them. *)
Definition three_falling_bars : DataFrame :=
  [bar 20 21 15 16; bar 16 17 12 13; bar 13 14 9 10].

(** A falling run of highs, a new high at bar 6, then three bearish bars
    with falling lows. *)
Definition crows_after_high : DataFrame :=
  [bar 9 10 8 9; bar 8 9 7 8; bar 7 8 6 7; bar 6 7 5 6; bar 5 6 4 5;
   bar 4 5 3 4; bar 10 20 9 19; bar 19 19 15 16; bar 16 17 12 13;
   bar 13 14 9 10].

(** A close maximum at bar 0, then three bearish bars; bar 2 opens and
    trades wholly below the low of bar 1. *)
Definition gapping_series : DataFrame :=
  [bar 20 22 19 21; bar 20 21 15 16; bar 14 14 11 12; bar 12 13 9 10].

(** As [gapping_series], but the range of bar 2 overlaps that of bar 1. *)
Definition gapping_without_gap : DataFrame :=
  [bar 20 22 19 21; bar 20 21 15 16; bar 16 17 12 13; bar 13 14 9 10].

(** A bar that is neither bearish nor bullish, among bearish bars. *)
Definition doji_series : DataFrame :=
  [bar 20 21 15 16; bar 16 17 12 13; bar 13 14 9 13; bar 8 25 8 24].

(** ** Further vocabulary *)

(** The conditions of the simplified three line strike: falling lows over
    the whole window, three bearish bars, a bullish bar that closes above
    the first bar's high. *)
Definition strike_shape (data : DataFrame) (index : Z) : Prop :=
  (price data (index - 2) Low < price data (index - 3) Low)%Q /\
  (price data (index - 1) Low < price data (index - 2) Low)%Q /\
  (price data index Low < price data (index - 1) Low)%Q /\
  black data (index - 3) /\
  black data (index - 2) /\
  black data (index - 1) /\
  white data index /\
  (price data index Close > price data (index - 3) High)%Q.

(** Did the call [is_top(data, i, "High", 5)] of the scan answer [True]? *)
Definition top_found (data : DataFrame) (i : Z) : bool :=
  match is_top data i High 5 with
  | Ok true => true
  | _ => false
  end.

(** The positions [index-3-high_range+1 .. index-3]. *)
Definition in_scan_window (index high_range i : Z) : Prop :=
  index - 3 - high_range + 1 <= i <= index - 3.

(** [crows_after_high] with three more bearish bars and falling lows: seen
    from index 12, the high at bar 6 is the bar [index-3-high_range] for
    [high_range = 3] and the bar [index-3-high_range+1] for
    [high_range = 4]. *)
Definition crows_long_after_high : DataFrame :=
  [bar 9 10 8 9; bar 8 9 7 8; bar 7 8 6 7; bar 6 7 5 6; bar 5 6 4 5;
   bar 4 5 3 4; bar 10 20 9 19; bar 19 19 15 16; bar 16 17 12 13;
   bar 13 14 9 10; bar 10 11 7 8; bar 8 9 5 6; bar 6 7 3 4].

(** Two series hold the same bars at the positions [lo..hi]. *)
Definition same_bars (data data' : DataFrame) (lo hi : Z) : Prop :=
  forall j, lo <= j <= hi -> row_at data j = row_at data' j.

(** ** The strategy template of [strategies/Strategy.py]

    The class keeps what backtrader hands it and adds [log],
    [notify_trade] and [notify_order].  The state below holds what these
    methods read and write: the parameter [notifytrade], the date of the
    current bar ([self.datas[0].datetime.date(0)]), the number of bars
    seen ([len(self)]), the attributes [bar_executed] and [order], and the
    lines printed so far. *)

Module Strategy.

(** A parameter value as a caller may pass it; the declared default of
    [notifytrade] is the string ["False"]. *)
Inductive PyValue : Type :=
| PyBool (b : bool)
| PyInt (z : Z)
| PyStr (s : string).

(** [value == True]: a boolean equals [True] when it is [True], an integer
    when it is 1, a string never. *)
Definition equals_True (value : PyValue) : bool :=
  match value with
  | PyBool b => b
  | PyInt z => z =? 1
  | PyStr _ => false
  end.

Definition default_notifytrade : PyValue := PyStr "False".

(** The statuses of a backtrader order. *)
Inductive Status : Type :=
| Created | Submitted | Accepted | Partial | Completed
| Canceled | Expired | Margin | Rejected.

Definition Status_eqb (a b : Status) : bool :=
  match a, b with
  | Created, Created | Submitted, Submitted | Accepted, Accepted
  | Partial, Partial | Completed, Completed | Canceled, Canceled
  | Expired, Expired | Margin, Margin | Rejected, Rejected => true
  | _, _ => false
  end.

(** [status in [a, b, ...]] *)
Definition status_in (status : Status) (choices : list Status) : bool :=
  existsb (Status_eqb status) choices.

Record Executed : Type := mkExecuted {
  exec_size : Q;
  exec_price : Q;
  exec_value : Q;
  exec_comm : Q
}.

Record Order : Type := mkOrder {
  status : Status;
  isbuy : bool;
  issell : bool;
  executed : Executed
}.

Record Trade : Type := mkTrade {
  justopened : bool;
  isclosed : bool;
  trade_size : Q;
  trade_price : Q;
  trade_pnlcomm : Q
}.

(** The texts handed to [log], with the values their format strings
    interpolate. *)
Inductive Text : Type :=
| TradeOpened (size price : Q)
| TradeClosed (pnlcomm : Q)
| TradeUpdated (size price : Q)
| BuyExecuted (size price value comm : Q)
| SellExecuted (price : Q)
| OrderCanceledMarginRejected.

Definition Date : Type := Z.

(** A printed line, ["%s, %s" % (dt.isoformat(), txt)]. *)
Definition Line : Type := (Date * Text)%type.

Record State : Type := mkState {
  notifytrade : PyValue;
  today : Date;
  bars : Z;
  bar_executed : option Z;
  order : option Order;
  stdout : list Line
}.

Definition print (s : State) (line : Line) : State :=
  mkState (notifytrade s) (today s) (bars s) (bar_executed s) (order s)
          (stdout s ++ [line]).

(** [dt = dt or self.datas[0].datetime.date(0)], then the print. *)
Definition log (s : State) (txt : Text) (dt : option Date) : State :=
  let dt := match dt with Some d => d | None => today s end in
  print s (dt, txt).

Definition notify_trade (s : State) (trade : Trade) : State :=
  if equals_True (notifytrade s) then
    if justopened trade then
      log s (TradeOpened (trade_size trade) (trade_price trade)) None
    else if isclosed trade then
      log s (TradeClosed (trade_pnlcomm trade)) None
    else
      log s (TradeUpdated (trade_size trade) (trade_price trade)) None
  else s.

Definition set_bar_executed (s : State) (n : Z) : State :=
  mkState (notifytrade s) (today s) (bars s) (Some n) (order s) (stdout s).

Definition set_order (s : State) (o : option Order) : State :=
  mkState (notifytrade s) (today s) (bars s) (bar_executed s) o (stdout s).

Definition notify_order (s : State) (o : Order) : State :=
  if status_in (status o) [Submitted; Accepted] then s
  else
    let s :=
      if status_in (status o) [Completed] then
        let s :=
          if isbuy o then
            log s (BuyExecuted (exec_size (executed o))
                               (exec_price (executed o))
                               (exec_value (executed o))
                               (exec_comm (executed o))) None
          else if issell o then
            log s (SellExecuted (exec_price (executed o))) None
          else s in
        set_bar_executed s (bars s)
      else if status_in (status o) [Canceled; Margin; Rejected] then
        log s OrderCanceledMarginRejected None
      else s in
    set_order s None.

(** A notification that the source names no branch for, or a completed
    order that is neither a buy nor a sell, prints nothing. *)
Definition silent (o : Order) : bool :=
  match status o with
  | Completed => negb (isbuy o) && negb (issell o)
  | Canceled | Margin | Rejected => false
  | _ => true
  end.

(** A strategy waiting on a buy order, with trade notifications left at
    their default. *)
Definition waiting : State :=
  mkState default_notifytrade 20200101 7 None
          (Some (mkOrder Submitted true false (mkExecuted 0 0 0 0))) [].

End Strategy.

(** ** The file name of a strategy in [backtest.py]

    [Backtest.run] names the statistics files of a strategy after
    ["_".join(strategy[0].lower().split())].  Strategy names are taken to
    be ASCII text, as a list of characters; on ASCII, [str.split()] cuts
    at tab, line feed, vertical tab, form feed, carriage return, the four
    separators 28..31 and the space, and [str.lower()] moves [A-Z] to
    [a-z]. *)

Module Backtest.

Definition text : Type := list ascii.

Definition is_ascii (c : ascii) : bool := (nat_of_ascii c <? 128)%nat.

(** [c.isspace()] *)
Definition isspace (c : ascii) : bool :=
  let n := nat_of_ascii c in
  ((9 <=? n) && (n <=? 13) || (28 <=? n) && (n <=? 32))%nat.

Definition isupper (c : ascii) : bool :=
  let n := nat_of_ascii c in ((65 <=? n) && (n <=? 90))%nat.

Definition lower_char (c : ascii) : ascii :=
  if isupper c then ascii_of_nat (nat_of_ascii c + 32) else c.

(** [s.lower()] *)
Definition lower (s : text) : text := map lower_char s.

(** Does a word go on at the head of [rest]? *)
Definition word_goes_on (rest : text) : bool :=
  match rest with
  | c :: _ => negb (isspace c)
  | [] => false
  end.

(** [s.split()]: the maximal runs of characters that are not whitespace,
    in order. *)
Fixpoint split (s : text) : list text :=
  match s with
  | [] => []
  | c :: rest =>
      let words := split rest in
      if isspace c then words
      else if word_goes_on rest then
        match words with
        | word :: more => (c :: word) :: more
        | [] => [[c]]
        end
      else [c] :: words
  end.

(** [sep.join(words)] *)
Fixpoint join (sep : text) (words : list text) : text :=
  match words with
  | [] => []
  | [word] => word
  | word :: rest => word ++ sep ++ join sep rest
  end.

Definition underscore : text := ["_"%char].

(** [filename = "_".join(strategy[0].lower().split())] *)
Definition strategy_filename (name : text) : text :=
  join underscore (split (lower name)).

End Backtest.

(** ** Comparisons and positions *)

Lemma Qltb_true (a b : Q) : Qltb a b = true <-> (a < b)%Q.
Proof.
  unfold Qltb. rewrite negb_true_iff. split.
  - intros Hb. apply Qnot_le_lt. intros Hle.
    apply Qle_bool_iff in Hle. congruence.
  - intros Hlt. destruct (Qle_bool b a) eqn:E; [|reflexivity].
    apply Qle_bool_iff in E. exfalso. exact (Qlt_not_le _ _ Hlt E).
Qed.

Lemma Qltb_false (a b : Q) : Qltb a b = false <-> (b <= a)%Q.
Proof.
  unfold Qltb. rewrite negb_false_iff. apply Qle_bool_iff.
Qed.

Lemma Qltb_eq_false (a b : Q) : (a == b)%Q -> Qltb a b = false /\ Qltb b a = false.
Proof.
  intros E. split; apply Qltb_false; rewrite E; apply Qle_refl.
Qed.

Lemma nth_error_row_at (data : DataFrame) (i : Z) :
  0 <= i < len data -> nth_error data (Z.to_nat i) = Some (row_at data i).
Proof.
  intros Hi. unfold row_at. apply nth_error_nth'. unfold len in Hi. lia.
Qed.

Lemma bar_at_valid (data : DataFrame) (i : Z) :
  0 <= i < len data -> bar_at data i = Found (row_at data i).
Proof.
  intros Hi. unfold bar_at.
  destruct (i <? 0) eqn:E; [apply Z.ltb_lt in E; lia|].
  now rewrite nth_error_row_at.
Qed.

Lemma bar_at_found (data : DataFrame) (i : Z) (row : Bar) :
  bar_at data i = Found row -> 0 <= i < len data /\ row = row_at data i.
Proof.
  unfold bar_at. destruct (i <? 0) eqn:E; [discriminate|].
  apply Z.ltb_ge in E.
  destruct (nth_error data (Z.to_nat i)) as [r|] eqn:N; [|discriminate].
  intros [= <-].
  assert (Hlt : (Z.to_nat i < length data)%nat)
    by (apply nth_error_Some; congruence).
  assert (Hi : 0 <= i < len data) by (unfold len; lia).
  split; [exact Hi|].
  rewrite (nth_error_row_at data i Hi) in N. congruence.
Qed.

Lemma bar_at_negative (data : DataFrame) (i : Z) :
  i < 0 -> bar_at data i = BeforeStart.
Proof.
  intros Hi. unfold bar_at. apply Z.ltb_lt in Hi. now rewrite Hi.
Qed.

Lemma iloc_valid (data : DataFrame) (i : Z) :
  0 <= i < len data -> iloc data i = Ok (row_at data i).
Proof.
  intros Hi. unfold iloc.
  destruct (i <? 0) eqn:E; [apply Z.ltb_lt in E; lia|]. rewrite E.
  now rewrite nth_error_row_at.
Qed.

Lemma with_bar_valid (data : DataFrame) (i : Z) (k : Bar -> result bool) :
  0 <= i < len data -> with_bar data i k = k (row_at data i).
Proof.
  intros Hi. unfold with_bar. now rewrite bar_at_valid.
Qed.

Lemma with_bar_negative (data : DataFrame) (i : Z) (k : Bar -> result bool) :
  i < 0 -> with_bar data i k = Ok false.
Proof.
  intros Hi. unfold with_bar. now rewrite bar_at_negative.
Qed.

Lemma with_bar_true (data : DataFrame) (i : Z) (k : Bar -> result bool) :
  with_bar data i k = Ok true ->
  0 <= i < len data /\ k (row_at data i) = Ok true.
Proof.
  unfold with_bar. destruct (bar_at data i) as [row| |] eqn:E; try discriminate.
  apply bar_at_found in E as [Hi ->]. auto.
Qed.

(** ** Short-circuit conjunction *)

Lemma and_then_true (x y : result bool) :
  x &&& y = Ok true <-> x = Ok true /\ y = Ok true.
Proof.
  destruct x as [[|]|]; simpl; split.
  - intros Hy. now split.
  - now intros [_ Hy].
  - discriminate.
  - now intros [Hx _].
  - discriminate.
  - now intros [Hx _].
Qed.

Lemma and_then_Ok (a b : bool) : Ok a &&& Ok b = Ok (a && b).
Proof. now destruct a. Qed.

Lemma and_then_false_l (y : result bool) : Ok false &&& y = Ok false.
Proof. reflexivity. Qed.

Lemma Ok_true_iff (b : bool) (P : Prop) :
  (b = true <-> P) -> (Ok b = Ok true <-> P).
Proof.
  intros H. rewrite <- H. split.
  - now intros [= ->].
  - now intros ->.
Qed.

(** ** Index ranges *)

Lemma In_range_up (a b i : Z) : In i (range_up a b) <-> a <= i < b.
Proof.
  unfold range_up. rewrite in_map_iff. split.
  - intros [k [<- Hk]]. apply in_seq in Hk. lia.
  - intros Hi. exists (Z.to_nat (i - a)). split; [lia|].
    apply in_seq. lia.
Qed.

Lemma In_range_down (a b i : Z) : In i (range_down a b) <-> b < i <= a.
Proof.
  unfold range_down. rewrite in_map_iff. split.
  - intros [k [<- Hk]]. apply in_seq in Hk. lia.
  - intros Hi. exists (Z.to_nat (a - i)). split; [lia|].
    apply in_seq. lia.
Qed.

Lemma range_up_empty (a b : Z) : b <= a -> range_up a b = [].
Proof.
  intros H. unfold range_up.
  replace (Z.to_nat (b - a)) with 0%nat by lia. reflexivity.
Qed.

Lemma range_down_empty (a b : Z) : a <= b -> range_down a b = [].
Proof.
  intros H. unfold range_down.
  replace (Z.to_nat (a - b)) with 0%nat by lia. reflexivity.
Qed.

Lemma range_up_cons (a b : Z) :
  a < b -> range_up a b = a :: range_up (a + 1) b.
Proof.
  intros H. unfold range_up.
  replace (Z.to_nat (b - a)) with (S (Z.to_nat (b - (a + 1)))) by lia.
  simpl. f_equal; [lia|].
  rewrite <- seq_shift, map_map. apply map_ext. intros k. lia.
Qed.

Lemma range_down_cons (a b : Z) :
  b < a -> range_down a b = a :: range_down (a - 1) b.
Proof.
  intros H. unfold range_down.
  replace (Z.to_nat (a - b)) with (S (Z.to_nat (a - 1 - b))) by lia.
  simpl. f_equal; [lia|].
  rewrite <- seq_shift, map_map. apply map_ext. intros k. lia.
Qed.

Lemma range_up_one (i : Z) : range_up (i - 1 + 1) (i + 1) = [i].
Proof.
  replace (i - 1 + 1) with i by lia.
  rewrite range_up_cons by lia. now rewrite range_up_empty by lia.
Qed.

Lemma range_up_three (i : Z) :
  range_up (i - 3 + 1) (i + 1) = [i - 2; i - 1; i].
Proof.
  replace (i - 3 + 1) with (i - 2) by lia.
  rewrite (range_up_cons (i - 2)) by lia.
  replace (i - 2 + 1) with (i - 1) by lia.
  rewrite (range_up_cons (i - 1)) by lia.
  replace (i - 1 + 1) with i by lia.
  rewrite (range_up_cons i) by lia.
  now rewrite range_up_empty by lia.
Qed.

Lemma length_range_down (a b : Z) :
  Z.of_nat (length (range_down a b)) = Z.max 0 (a - b).
Proof.
  unfold range_down. rewrite length_map, length_seq. lia.
Qed.

Lemma nth_error_range_down (a b : Z) (k : nat) :
  Z.of_nat k < a - b -> nth_error (range_down a b) k = Some (a - Z.of_nat k).
Proof.
  intros Hk. unfold range_down.
  rewrite nth_error_map, nth_error_seq.
  destruct (Nat.ltb_spec k (Z.to_nat (a - b))) as [_|Hge]; [reflexivity|lia].
Qed.

(** ** The predicates of [tools] on valid positions *)

Lemma is_black_candle_valid (data : DataFrame) (i : Z) :
  0 <= i < len data -> is_black_candle data i = Ok (blackb data i).
Proof.
  intros Hi. unfold is_black_candle. now rewrite with_bar_valid.
Qed.

Lemma is_white_candle_valid (data : DataFrame) (i : Z) :
  0 <= i < len data -> is_white_candle data i = Ok (whiteb data i).
Proof.
  intros Hi. unfold is_white_candle. now rewrite with_bar_valid.
Qed.

Lemma lower_low_valid (data : DataFrame) (i : Z) :
  1 <= i < len data -> lower_low data i = Ok (lowerb data i).
Proof.
  intros Hi. unfold lower_low.
  rewrite with_bar_valid by lia. now rewrite with_bar_valid by lia.
Qed.

Lemma is_gap_valid (data : DataFrame) (i : Z) :
  1 <= i < len data -> is_gap data i = Ok (gapb data i).
Proof.
  intros Hi. unfold is_gap.
  rewrite with_bar_valid by lia. now rewrite with_bar_valid by lia.
Qed.

Lemma is_top_valid (data : DataFrame) (i : Z) (column : Column) (period : Z) :
  0 <= i < len data -> is_top data i column period = Ok (topb data i column period).
Proof.
  intros Hi. unfold is_top. now rewrite with_bar_valid.
Qed.

Lemma is_top_negative (data : DataFrame) (i : Z) (column : Column) (period : Z) :
  i < 0 -> is_top data i column period = Ok false.
Proof.
  intros Hi. unfold is_top. now apply with_bar_negative.
Qed.

Lemma all_then_map_Ok (f : Z -> result bool) (g : Z -> bool) (l : list Z) :
  (forall i, In i l -> f i = Ok (g i)) ->
  all_then (map f l) = Ok (forallb g l).
Proof.
  induction l as [|i l IH]; intros Hf; [reflexivity|].
  simpl. rewrite (Hf i) by now left.
  rewrite IH by (intros j Hj; apply Hf; now right).
  apply and_then_Ok.
Qed.

Lemma all_then_true (steps : list (result bool)) :
  all_then steps = Ok true <-> Forall (fun s => s = Ok true) steps.
Proof.
  induction steps as [|s rest IH]; simpl.
  - split; [constructor|reflexivity].
  - rewrite and_then_true, IH. split.
    + intros [Hs Hrest]. now constructor.
    + intros H. inversion H. now split.
Qed.

Lemma is_lower_lows_valid (data : DataFrame) (s e : Z) :
  0 <= s -> e < len data ->
  is_lower_lows data s e = Ok (forallb (lowerb data) (range_up (s + 1) (e + 1))).
Proof.
  intros Hs He. unfold is_lower_lows. apply all_then_map_Ok.
  intros i Hi. apply In_range_up in Hi. apply lower_low_valid. lia.
Qed.

Lemma is_lower_lows_empty (data : DataFrame) (s e : Z) :
  e <= s -> is_lower_lows data s e = Ok true.
Proof.
  intros H. unfold is_lower_lows. now rewrite range_up_empty by lia.
Qed.

Lemma lower_low_true (data : DataFrame) (i : Z) :
  lower_low data i = Ok true ->
  1 <= i < len data /\ (price data i Low < price data (i - 1) Low)%Q.
Proof.
  unfold lower_low. intros H.
  apply with_bar_true in H as [Hprev H].
  apply with_bar_true in H as [Hi H].
  injection H as H. apply Qltb_true in H. split; [lia|exact H].
Qed.

Lemma is_lower_lows_true (data : DataFrame) (s e : Z) :
  is_lower_lows data s e = Ok true ->
  forall i, s < i <= e ->
    1 <= i < len data /\ (price data i Low < price data (i - 1) Low)%Q.
Proof.
  unfold is_lower_lows. intros H i Hi.
  apply all_then_true in H. rewrite Forall_forall in H.
  apply lower_low_true. apply H.
  apply in_map. apply In_range_up. lia.
Qed.

(** The scan of [three_black_crows] on positions that do not run past the
    end: the flag ends as the disjunction of [is_top] over the visited
    positions that lie inside the series. *)
Lemma near_high_scan_from (data : DataFrame) (indices : list Z) (flag : bool) :
  (forall i, In i indices -> i < len data) ->
  fold_left (fun flag i =>
               is_near_high <- flag ;;
               top <- is_top data i High 5 ;;
               Ok (is_near_high || top))
            indices (Ok flag)
  = Ok (flag || existsb (fun i => (0 <=? i) && topb data i High 5) indices).
Proof.
  revert flag. induction indices as [|i rest IH]; intros flag Hin; simpl.
  - now rewrite orb_false_r.
  - assert (Hi : i < len data) by (apply Hin; now left).
    assert (Hrest : forall j, In j rest -> j < len data)
      by (intros j Hj; apply Hin; now right).
    destruct (0 <=? i) eqn:E.
    + apply Z.leb_le in E. rewrite is_top_valid by lia. simpl.
      rewrite IH by exact Hrest. now rewrite orb_assoc.
    + apply Z.leb_gt in E. rewrite is_top_negative by lia. simpl.
      rewrite IH by exact Hrest. now rewrite orb_false_r.
Qed.

Lemma near_high_scan_valid (data : DataFrame) (indices : list Z) :
  (forall i, In i indices -> i < len data) ->
  near_high_scan data indices
  = Ok (existsb (fun i => (0 <=? i) && topb data i High 5) indices).
Proof.
  intros H. unfold near_high_scan. now rewrite near_high_scan_from.
Qed.

(** ** The window of [is_top] *)

Lemma In_window (data : DataFrame) (i period : Z) (other : Bar) :
  0 <= i < len data ->
  In other (window data i period) <->
  exists j, Z.max 0 (i - period + 1) <= j <= i /\ other = row_at data j.
Proof.
  intros Hi. unfold window.
  set (a := Z.to_nat (Z.max 0 (i - period + 1))).
  set (b := Z.to_nat (i + 1)).
  rewrite In_iff_nth_error. split.
  - intros [n Hn]. rewrite nth_error_skipn, nth_error_firstn in Hn.
    destruct (Nat.ltb_spec (a + n) b) as [Hlt|Hge]; [|discriminate].
    exists (Z.of_nat (a + n)). split; [lia|].
    assert (E : nth_error data (a + n)%nat
                = Some (row_at data (Z.of_nat (a + n)))).
    { rewrite <- (Nat2Z.id (a + n)) at 1. apply nth_error_row_at. lia. }
    congruence.
  - intros [j [Hj ->]]. exists (Z.to_nat j - a)%nat.
    rewrite nth_error_skipn, nth_error_firstn.
    replace (a + (Z.to_nat j - a))%nat with (Z.to_nat j) by lia.
    destruct (Nat.ltb_spec (Z.to_nat j) b) as [Hlt|Hge]; [|lia].
    apply nth_error_row_at. lia.
Qed.

Lemma topb_holds_max (data : DataFrame) (i : Z) (column : Column) (period : Z) :
  0 <= i < len data ->
  topb data i column period = true <-> holds_max data i column period.
Proof.
  intros Hi. unfold topb, holds_max. rewrite forallb_forall. split.
  - intros H j Hj. apply Qle_bool_iff. apply (H (row_at data j)).
    apply In_window; [exact Hi|]. now exists j.
  - intros H other Hin. apply In_window in Hin as [j [Hj ->]]; [|exact Hi].
    apply Qle_bool_iff. now apply H.
Qed.

(** ** The detectors on valid positions *)

Ltac not_guarded :=
  match goal with
  | |- context [?i <? 3] =>
      let E := fresh "E" in
      destruct (i <? 3) eqn:E; [apply Z.ltb_lt in E; lia|clear E]
  end.

Ltac on_valid_bars :=
  rewrite ?is_black_candle_valid, ?is_white_candle_valid, ?is_gap_valid,
    ?is_top_valid, ?iloc_valid by lia;
  cbn [bind]; rewrite ?and_then_Ok.

Lemma three_line_strike_valid (data : DataFrame) (index : Z) :
  3 <= index < len data ->
  three_line_strike data index = Ok (three_line_strike_value data index).
Proof.
  intros Hi. unfold three_line_strike, three_line_strike_value. not_guarded.
  rewrite is_lower_lows_valid, range_up_three by lia.
  on_valid_bars. reflexivity.
Qed.

Lemma three_line_strike_simplified_valid (data : DataFrame) (index : Z) :
  3 <= index < len data ->
  three_line_strike_simplified data index
  = Ok (three_line_strike_simplified_value data index).
Proof.
  intros Hi.
  unfold three_line_strike_simplified, three_line_strike_simplified_value.
  not_guarded.
  rewrite is_lower_lows_valid, range_up_three by lia.
  on_valid_bars. reflexivity.
Qed.

Lemma two_black_gapping_valid (data : DataFrame) (index : Z) :
  3 <= index < len data ->
  two_black_gapping data index = Ok (two_black_gapping_value data index).
Proof.
  intros Hi. unfold two_black_gapping, two_black_gapping_value. not_guarded.
  rewrite is_lower_lows_valid, range_up_one by lia.
  on_valid_bars. reflexivity.
Qed.

Lemma two_black_gapping_simplified_valid (data : DataFrame) (index : Z) :
  3 <= index < len data ->
  two_black_gapping_simplified data index
  = Ok (two_black_gapping_simplified_value data index).
Proof.
  intros Hi.
  unfold two_black_gapping_simplified, two_black_gapping_simplified_value.
  not_guarded.
  rewrite is_lower_lows_valid, range_up_one by lia.
  on_valid_bars. reflexivity.
Qed.

Lemma scan_indices_below (index high_range i : Z) :
  In i (scan_indices index high_range) -> i <= index - 3.
Proof.
  unfold scan_indices. intros H. apply In_range_down in H. lia.
Qed.

Lemma three_black_crows_valid (data : DataFrame) (index high_range : Z) :
  2 <= index < len data ->
  three_black_crows data index high_range
  = Ok (three_black_crows_value data index high_range).
Proof.
  intros Hi. unfold three_black_crows, three_black_crows_value.
  rewrite near_high_scan_valid
    by (intros i Hin; apply scan_indices_below in Hin; lia).
  cbn [bind].
  rewrite is_lower_lows_valid, range_up_one by lia.
  on_valid_bars. reflexivity.
Qed.

(** Evaluate a closed comparison of rationals. *)
Ltac qcompare := vm_compute; first [reflexivity | discriminate].

(** ** The minimum-history guard *)

Lemma existsb_none {A : Type} (f : A -> bool) (l : list A) :
  (forall x, In x l -> f x = false) -> existsb f l = false.
Proof.
  induction l as [|x l IH]; intros H; [reflexivity|].
  simpl. rewrite (H x) by now left. apply IH. intros y Hy. apply H. now right.
Qed.

Lemma near_high_scan_before_start (data : DataFrame) (index high_range : Z) :
  index < 3 -> near_high_scan data (scan_indices index high_range) = Ok false.
Proof.
  intros Hi. rewrite near_high_scan_valid.
  - f_equal. apply existsb_none. intros i Hin.
    apply scan_indices_below in Hin.
    destruct (0 <=? i) eqn:E; [apply Z.leb_le in E; lia|reflexivity].
  - intros i Hin. apply scan_indices_below in Hin. unfold len. lia.
Qed.

Lemma three_black_crows_before_three (data : DataFrame) (index high_range : Z) :
  index < 3 -> three_black_crows data index high_range = Ok false.
Proof.
  intros Hi. unfold three_black_crows.
  now rewrite near_high_scan_before_start by exact Hi.
Qed.

(** C1: for every series and every index below 3, each of the five
    detectors returns [false]; none raises. *)
Theorem C1_minimum_history_guard (data : DataFrame) (index high_range : Z) :
  index < 3 ->
  three_line_strike data index = Ok false /\
  three_line_strike_simplified data index = Ok false /\
  two_black_gapping data index = Ok false /\
  two_black_gapping_simplified data index = Ok false /\
  three_black_crows data index high_range = Ok false.
Proof.
  intros Hi.
  rewrite three_black_crows_before_three by exact Hi.
  unfold three_line_strike, three_line_strike_simplified, two_black_gapping,
    two_black_gapping_simplified.
  apply Z.ltb_lt in Hi. rewrite Hi. repeat split.
Qed.

Lemma C1_minimum_history_guard_witness :
  2 < 3 /\
  three_line_strike three_falling_bars 2 = Ok false /\
  three_line_strike_simplified three_falling_bars 2 = Ok false /\
  two_black_gapping three_falling_bars 2 = Ok false /\
  two_black_gapping_simplified three_falling_bars 2 = Ok false /\
  three_black_crows three_falling_bars 2 default_high_range = Ok false.
Proof.
  split; [lia|].
  apply (C1_minimum_history_guard three_falling_bars 2 default_high_range).
  lia.
Defined.

(** ** Three line strike *)

Lemma three_line_strike_value_true (data : DataFrame) (index : Z) :
  three_line_strike_value data index = true <->
  three_line_strike_stated data index /\
  (price data index Low < price data (index - 1) Low)%Q.
Proof.
  unfold three_line_strike_value, three_line_strike_stated, black, white,
    lowerb, blackb, whiteb, Qgtb.
  cbn [forallb].
  rewrite !andb_true_iff, !Qltb_true, Qeq_bool_iff.
  replace (index - 2 - 1) with (index - 3) by lia.
  replace (index - 1 - 1) with (index - 2) by lia.
  tauto.
Qed.

(** C2, as stated, fails: on [strike_last_low_not_lower] every stated
    condition holds at index 3, yet the detector answers [false], because
    the low of bar 3 is not below the low of bar 2. *)
Lemma C2_counterexample :
  ~ (forall data index,
        3 <= index < len data ->
        (three_line_strike data index = Ok true <->
         three_line_strike_stated data index)).
Proof.
  intros H.
  assert (Hi : 3 <= 3 < len strike_last_low_not_lower) by (vm_compute; split; congruence).
  destruct (H strike_last_low_not_lower 3 Hi) as [_ Hback].
  assert (Hfalse : three_line_strike strike_last_low_not_lower 3 = Ok false)
    by reflexivity.
  rewrite Hback in Hfalse; [discriminate|].
  unfold three_line_strike_stated, black, white.
  repeat split; qcompare.
Qed.

(** C2, amended: on a valid index of at least 3 the detector does not
    raise, and it returns [true] iff the stated conditions hold and, in
    addition, the low of bar [index] is below the low of bar [index-1]. *)
Theorem C2_three_line_strike_iff (data : DataFrame) (index : Z) :
  3 <= index < len data ->
  (exists b, three_line_strike data index = Ok b) /\
  (three_line_strike data index = Ok true <->
   three_line_strike_stated data index /\
   (price data index Low < price data (index - 1) Low)%Q).
Proof.
  intros Hi. rewrite three_line_strike_valid by exact Hi. split.
  - eexists. reflexivity.
  - rewrite <- three_line_strike_value_true. split.
    + now intros [= ->].
    + now intros ->.
Qed.

Lemma C2_three_line_strike_iff_witness :
  3 <= 3 < len strike_series /\
  three_line_strike strike_series 3 = Ok true /\
  three_line_strike_stated strike_series 3 /\
  (price strike_series 3 Low < price strike_series (3 - 1) Low)%Q.
Proof.
  assert (Hi : 3 <= 3 < len strike_series) by (vm_compute; split; congruence).
  split; [exact Hi|].
  split; [reflexivity|].
  apply (proj2 (C2_three_line_strike_iff strike_series 3 Hi)).
  reflexivity.
Defined.

Lemma three_line_strike_lower_lows (data : DataFrame) (index : Z) :
  3 <= index ->
  three_line_strike data index = Ok true ->
  is_lower_lows data (index - 3) index = Ok true.
Proof.
  intros Hi. unfold three_line_strike. not_guarded.
  rewrite !and_then_true. tauto.
Qed.

Lemma three_line_strike_simplified_lower_lows (data : DataFrame) (index : Z) :
  3 <= index ->
  three_line_strike_simplified data index = Ok true ->
  is_lower_lows data (index - 3) index = Ok true.
Proof.
  intros Hi. unfold three_line_strike_simplified. not_guarded.
  rewrite !and_then_true. tauto.
Qed.

(** C9: when the three line strike or its simplified form matches at an
    index of at least 3, the low of bar [index] is below the low of bar
    [index-1]: the lower lows run over the whole window [index-3..index]. *)
Theorem C9_lower_lows_reach_last_bar (data : DataFrame) (index : Z) :
  3 <= index ->
  three_line_strike data index = Ok true \/
  three_line_strike_simplified data index = Ok true ->
  index < len data /\
  (price data (index - 2) Low < price data (index - 3) Low)%Q /\
  (price data (index - 1) Low < price data (index - 2) Low)%Q /\
  (price data index Low < price data (index - 1) Low)%Q.
Proof.
  intros Hi Hmatch.
  assert (Hlows : is_lower_lows data (index - 3) index = Ok true).
  { destruct Hmatch as [H|H].
    - now apply three_line_strike_lower_lows.
    - now apply three_line_strike_simplified_lower_lows. }
  pose proof (is_lower_lows_true data _ _ Hlows) as Hwalk.
  destruct (Hwalk index) as [Hlen Hlast]; [lia|].
  destruct (Hwalk (index - 1)) as [_ Hmid]; [lia|].
  destruct (Hwalk (index - 2)) as [_ Hfirst]; [lia|].
  replace (index - 1 - 1) with (index - 2) in Hmid by lia.
  replace (index - 2 - 1) with (index - 3) in Hfirst by lia.
  repeat split; [lia|assumption..].
Qed.

Lemma C9_lower_lows_reach_last_bar_witness :
  3 <= 3 /\
  (three_line_strike strike_open_above_low 3 = Ok true \/
   three_line_strike_simplified strike_open_above_low 3 = Ok true) /\
  (price strike_open_above_low 3 Low
   < price strike_open_above_low (3 - 1) Low)%Q.
Proof.
  split; [lia|]. split; [right; reflexivity|].
  apply (C9_lower_lows_reach_last_bar strike_open_above_low 3);
    [lia|right; reflexivity].
Defined.

(** ** Three black crows *)

Lemma near_high_existsb (data : DataFrame) (index high_range : Z) :
  index < len data ->
  existsb (fun i => (0 <=? i) && topb data i High 5)
          (scan_indices index high_range) = true
  <-> near_high data index high_range.
Proof.
  intros Hi. rewrite existsb_exists. unfold near_high, scan_indices. split.
  - intros [i [Hin Htop]]. apply In_range_down in Hin.
    apply andb_true_iff in Htop as [H0 Htop]. apply Z.leb_le in H0.
    exists i. repeat split; try lia.
    apply topb_holds_max; [lia|exact Htop].
  - intros [i [Hrange [H0 Hmax]]]. exists i. split.
    + apply In_range_down. lia.
    + apply andb_true_iff. split; [now apply Z.leb_le|].
      apply topb_holds_max; [lia|exact Hmax].
Qed.

Lemma three_black_crows_value_true (data : DataFrame) (index high_range : Z) :
  index < len data ->
  three_black_crows_value data index high_range = true <->
  near_high data index high_range /\ crows_shape data index.
Proof.
  intros Hi.
  rewrite <- (near_high_existsb data index high_range Hi).
  unfold three_black_crows_value, crows_shape, black, blackb, lowerb.
  cbn [forallb].
  rewrite !andb_true_iff, !Qltb_true. tauto.
Qed.

Lemma three_black_crows_returns (data : DataFrame) (index high_range : Z) :
  index < len data ->
  exists b, three_black_crows data index high_range = Ok b.
Proof.
  intros Hi. destruct (Z.lt_ge_cases index 3) as [Hlt|Hge].
  - exists false. now apply three_black_crows_before_three.
  - rewrite three_black_crows_valid by lia. eexists. reflexivity.
Qed.

Lemma three_black_crows_true_iff (data : DataFrame) (index high_range : Z) :
  index < len data ->
  three_black_crows data index high_range = Ok true <->
  near_high data index high_range /\ crows_shape data index.
Proof.
  intros Hi. destruct (Z.lt_ge_cases index 3) as [Hlt|Hge].
  - rewrite three_black_crows_before_three by exact Hlt. split.
    + discriminate.
    + intros [[i [Hrange [H0 _]]] _]. lia.
  - rewrite three_black_crows_valid by lia.
    apply Ok_true_iff. now apply three_black_crows_value_true.
Qed.

(** C3, as stated, fails: on [crows_after_high] at index 9 the only local
    high in reach is bar 6 = [index-3] itself; no bar among the five
    before it is one, yet the detector answers [true]. *)
Lemma C3_counterexample :
  ~ (forall data index,
        2 <= index < len data ->
        (three_black_crows data index default_high_range = Ok true <->
         near_high_before data index default_high_range /\
         crows_shape data index)).
Proof.
  intros H.
  assert (Hi : 2 <= 9 < len crows_after_high) by (vm_compute; split; congruence).
  destruct (H crows_after_high 9 Hi) as [Hforth _].
  destruct (Hforth eq_refl) as [[i [Hrange [H0 Hmax]]] _].
  unfold default_high_range in Hrange.
  apply topb_holds_max in Hmax; [|unfold len; simpl; lia].
  assert (Hcases : i = 1 \/ i = 2 \/ i = 3 \/ i = 4 \/ i = 5) by lia.
  destruct Hcases as [->|[->|[->|[->| ->]]]]; vm_compute in Hmax; discriminate.
Qed.

(** C3, amended: on an index that is not past the end of the series the
    detector does not raise, and for every [high_range] (5 by default) it
    returns [true] iff some bar among the [high_range] bars ending at
    [index-3], that bar included, holds the maximum of [High] over its
    5-bar window, bars [index-2], [index-1] and [index] are bearish, and
    the low of bar [index] is below the low of bar [index-1]. *)
Theorem C3_three_black_crows_iff (data : DataFrame) (index high_range : Z) :
  index < len data ->
  (exists b, three_black_crows data index high_range = Ok b) /\
  (three_black_crows data index high_range = Ok true <->
   near_high data index high_range /\ crows_shape data index).
Proof.
  intros Hi. split.
  - now apply three_black_crows_returns.
  - now apply three_black_crows_true_iff.
Qed.

Lemma C3_three_black_crows_iff_witness :
  9 < len crows_after_high /\
  three_black_crows crows_after_high 9 default_high_range = Ok true /\
  near_high crows_after_high 9 default_high_range /\
  crows_shape crows_after_high 9.
Proof.
  assert (Hi : 9 < len crows_after_high) by reflexivity.
  split; [exact Hi|].
  split; [reflexivity|].
  apply (proj2 (C3_three_black_crows_iff crows_after_high 9
                  default_high_range Hi)).
  reflexivity.
Defined.

Lemma scan_step_error (data : DataFrame) (indices : list Z) :
  fold_left (fun flag i =>
               is_near_high <- flag ;;
               top <- is_top data i High 5 ;;
               Ok (is_near_high || top))
            indices IndexError
  = IndexError.
Proof.
  induction indices as [|i rest IH]; [reflexivity|exact IH].
Qed.

Lemma near_high_scan_raises (data : DataFrame) (indices : list Z) (i : Z) :
  In i indices -> is_top data i High 5 = IndexError ->
  near_high_scan data indices = IndexError.
Proof.
  intros Hin Hraise. unfold near_high_scan.
  generalize (@Ok bool false) as flag. revert Hin.
  induction indices as [|j rest IH]; intros Hin flag; [contradiction|].
  cbn [fold_left]. destruct Hin as [->|Hin].
  - rewrite Hraise. destruct flag as [b|]; apply scan_step_error.
  - now apply IH.
Qed.

Lemma near_high_scan_answers (data : DataFrame) (indices : list Z) :
  (forall i, In i indices -> is_top data i High 5 <> IndexError) ->
  near_high_scan data indices = Ok (existsb (top_found data) indices).
Proof.
  intros Hok. unfold near_high_scan.
  assert (Hfrom : forall flag,
             fold_left (fun flag i =>
                          is_near_high <- flag ;;
                          top <- is_top data i High 5 ;;
                          Ok (is_near_high || top))
                       indices (Ok flag)
             = Ok (flag || existsb (top_found data) indices)).
  { induction indices as [|i rest IH]; intros flag; cbn [fold_left existsb].
    - now rewrite orb_false_r.
    - assert (Hi : is_top data i High 5 <> IndexError)
        by (apply Hok; now left).
      unfold top_found at 1.
      destruct (is_top data i High 5) as [top|]; [|contradiction].
      cbn [bind]. rewrite IH by (intros j Hj; apply Hok; now right).
      destruct top; now rewrite orb_assoc. }
  apply Hfrom.
Qed.

Lemma top_found_true (data : DataFrame) (i : Z) :
  top_found data i = true <-> is_top data i High 5 = Ok true.
Proof.
  unfold top_found. destruct (is_top data i High 5) as [[|]|]; split;
    intros H; try reflexivity; discriminate.
Qed.

Lemma In_scan_indices (index high_range i : Z) :
  In i (scan_indices index high_range) <-> in_scan_window index high_range i.
Proof.
  unfold scan_indices, in_scan_window. rewrite In_range_down. lia.
Qed.

(** C10: with [high_range <= 0] the scan visits nothing and the detector
    returns [false] at every index, whatever the series.  With
    [high_range >= 1] the scan visits [index-3], [index-4], ...,
    [index-3-high_range+1] in that order, and the detector examines
    exactly these positions: an error of [is_top] at any one of them is
    the detector's error, even after a local high was found; when none
    raises, the detector matches iff [is_top] answers [true] at one of
    them and the three bars and the last low are as required, and returns
    [false] when [is_top] answers [false] at all of them.  Bar [index-3]
    is among them: a local high at that bar alone is enough for a
    match. *)
Theorem C10_scan_window (data : DataFrame) (index high_range : Z) :
  (high_range <= 0 ->
   scan_indices index high_range = [] /\
   three_black_crows data index high_range = Ok false) /\
  (1 <= high_range ->
   Z.of_nat (length (scan_indices index high_range)) = high_range /\
   (forall k, 0 <= k < high_range ->
      nth_error (scan_indices index high_range) (Z.to_nat k)
      = Some (index - 3 - k)) /\
   (forall i, In i (scan_indices index high_range) <->
              index - 3 - high_range + 1 <= i <= index - 3) /\
   ((exists i, in_scan_window index high_range i /\
               is_top data i High 5 = IndexError) ->
    three_black_crows data index high_range = IndexError) /\
   ((forall i, in_scan_window index high_range i ->
               is_top data i High 5 <> IndexError) ->
    (three_black_crows data index high_range = Ok true <->
     (exists i, in_scan_window index high_range i /\
                is_top data i High 5 = Ok true) /\
     is_black_candle data (index - 2) = Ok true /\
     is_black_candle data (index - 1) = Ok true /\
     is_black_candle data index = Ok true /\
     is_lower_lows data (index - 1) index = Ok true) /\
    ((forall i, in_scan_window index high_range i ->
                is_top data i High 5 = Ok false) ->
     three_black_crows data index high_range = Ok false)) /\
   (3 <= index < len data ->
    holds_max data (index - 3) High 5 ->
    crows_shape data index ->
    three_black_crows data index high_range = Ok true)).
Proof.
  split.
  - intros Hr.
    assert (Hscan : scan_indices index high_range = [])
      by (unfold scan_indices; apply range_down_empty; lia).
    split; [exact Hscan|].
    unfold three_black_crows. rewrite Hscan. reflexivity.
  - intros Hr. split; [|split; [|split; [|split; [|split]]]].
    + unfold scan_indices. rewrite length_range_down. lia.
    + intros k Hk. unfold scan_indices.
      rewrite nth_error_range_down by lia. f_equal. lia.
    + intros i. unfold scan_indices. rewrite In_range_down. lia.
    + intros [i [Hwin Hraise]]. unfold three_black_crows.
      rewrite (near_high_scan_raises data _ i);
        [reflexivity|now apply In_scan_indices|exact Hraise].
    + intros Hok.
      assert (Hscan : near_high_scan data (scan_indices index high_range)
                      = Ok (existsb (top_found data)
                                    (scan_indices index high_range))).
      { apply near_high_scan_answers. intros i Hin. apply Hok.
        now apply In_scan_indices. }
      unfold three_black_crows. rewrite Hscan. cbn [bind].
      destruct (existsb (top_found data) (scan_indices index high_range))
        eqn:Efound.
      * apply existsb_exists in Efound as [i [Hin Htop]].
        apply In_scan_indices in Hin. apply top_found_true in Htop.
        split.
        -- rewrite !and_then_true. split.
           ++ intros [[[[_ H2] H1] H0] Hl]. repeat split; try assumption.
              exists i. now split.
           ++ intros [_ [H2 [H1 [H0 Hl]]]]. repeat split; assumption.
        -- intros Hnone. rewrite (Hnone i Hin) in Htop. discriminate.
      * split; [|reflexivity].
        cbn [and_then bind]. split; [discriminate|].
        intros [[i [Hwin Htop]] _].
        assert (Hfound : existsb (top_found data)
                                 (scan_indices index high_range) = true).
        { apply existsb_exists. exists i. split.
          - now apply In_scan_indices.
          - now apply top_found_true. }
        congruence.
    + intros Hi Hmax Hshape.
      apply three_black_crows_true_iff; [lia|].
      split; [|exact Hshape].
      exists (index - 3). repeat split; try lia. exact Hmax.
Qed.

Lemma C10_scan_window_witness :
  0 <= 0 /\
  three_black_crows crows_after_high 9 0 = Ok false /\
  1 <= 3 /\
  (forall i, in_scan_window 12 3 i ->
             is_top crows_long_after_high i High 5 = Ok false) /\
  three_black_crows crows_long_after_high 12 3 = Ok false /\
  1 <= 4 /\
  (forall i, in_scan_window 12 4 i ->
             is_top crows_long_after_high i High 5 <> IndexError) /\
  (in_scan_window 12 4 6 /\
   is_top crows_long_after_high 6 High 5 = Ok true) /\
  three_black_crows crows_long_after_high 12 4 = Ok true.
Proof.
  assert (Hfalse : forall i, in_scan_window 12 3 i ->
                     is_top crows_long_after_high i High 5 = Ok false).
  { intros i Hi. unfold in_scan_window in Hi.
    assert (Hcases : i = 7 \/ i = 8 \/ i = 9) by lia.
    destruct Hcases as [->|[->| ->]]; reflexivity. }
  assert (Hok3 : forall i, in_scan_window 12 3 i ->
                   is_top crows_long_after_high i High 5 <> IndexError).
  { intros i Hi. rewrite (Hfalse i Hi). discriminate. }
  assert (Hok4 : forall i, in_scan_window 12 4 i ->
                   is_top crows_long_after_high i High 5 <> IndexError).
  { intros i Hi. unfold in_scan_window in Hi.
    assert (Hcases : i = 6 \/ i = 7 \/ i = 8 \/ i = 9) by lia.
    destruct Hcases as [->|[->|[->| ->]]]; discriminate. }
  assert (Htop : in_scan_window 12 4 6 /\
                 is_top crows_long_after_high 6 High 5 = Ok true).
  { split; [unfold in_scan_window; lia|reflexivity]. }
  split; [lia|].
  split; [apply (proj1 (C10_scan_window crows_after_high 9 0)); lia|].
  split; [lia|]. split; [exact Hfalse|]. split.
  { destruct (proj2 (C10_scan_window crows_long_after_high 12 3))
      as [_ [_ [_ [_ [Hdecide _]]]]]; [lia|].
    destruct (Hdecide Hok3) as [_ Hnone].
    exact (Hnone Hfalse). }
  split; [lia|]. split; [exact Hok4|]. split; [exact Htop|].
  destruct (proj2 (C10_scan_window crows_long_after_high 12 4))
    as [_ [_ [_ [_ [Hdecide _]]]]]; [lia|].
  destruct (Hdecide Hok4) as [[_ Hmatch] _].
  apply Hmatch. split; [exists 6; exact Htop|].
  repeat split.
Defined.

(** ** Strict and simplified three line strike *)

Lemma is_black_candle_true (data : DataFrame) (i : Z) :
  is_black_candle data i = Ok true -> 0 <= i < len data.
Proof.
  unfold is_black_candle. intros H. now apply with_bar_true in H.
Qed.

Lemma is_white_candle_true (data : DataFrame) (i : Z) :
  is_white_candle data i = Ok true -> 0 <= i < len data.
Proof.
  unfold is_white_candle. intros H. now apply with_bar_true in H.
Qed.

Lemma three_line_strike_split (data : DataFrame) (index : Z) :
  three_line_strike data index
  = three_line_strike_simplified data index
    &&& previous_close_above_open data index
    &&& open_equals_low data index.
Proof.
  unfold three_line_strike, three_line_strike_simplified,
    previous_close_above_open, open_equals_low.
  destruct (index <? 3); [reflexivity|].
  remember (is_lower_lows data (index - 3) index
            &&& is_black_candle data (index - 3)
            &&& is_black_candle data (index - 2)
            &&& is_black_candle data (index - 1)
            &&& is_white_candle data index) as shape eqn:Eshape.
  destruct shape as [[|]|]; [|reflexivity..].
  symmetry in Eshape. rewrite !and_then_true in Eshape.
  destruct Eshape as [[[[_ Hfirst] _] Hprev] Hlast].
  apply is_black_candle_true in Hfirst, Hprev.
  apply is_white_candle_true in Hlast.
  rewrite !iloc_valid by lia. cbn [bind and_then].
  destruct (Qgtb (item (row_at data (index - 1)) Close)
                 (item (row_at data index) Open));
    destruct (Qgtb (item (row_at data index) Close)
                   (item (row_at data (index - 3)) High));
    reflexivity.
Qed.

(** C4: the strict three line strike is the simplified one in conjunction
    with [close[index-1] > open[index]] and [open[index] == low[index]];
    so a strict match is a simplified match; and on
    [strike_open_above_low], where only [open == low] fails at bar 3, the
    simplified detector matches and the strict one does not. *)
Theorem C4_strict_refines_simplified :
  (forall data index,
      three_line_strike data index
      = three_line_strike_simplified data index
        &&& previous_close_above_open data index
        &&& open_equals_low data index) /\
  (forall data index,
      three_line_strike data index = Ok true ->
      three_line_strike_simplified data index = Ok true) /\
  (exists data,
      three_line_strike_simplified data 3 = Ok true /\
      previous_close_above_open data 3 = Ok true /\
      open_equals_low data 3 = Ok false /\
      three_line_strike data 3 = Ok false).
Proof.
  split; [exact three_line_strike_split|]. split.
  - intros data index H. rewrite three_line_strike_split in H.
    rewrite !and_then_true in H. tauto.
  - exists strike_open_above_low. repeat split.
Qed.

Lemma C4_strict_refines_simplified_witness :
  three_line_strike strike_series 3 = Ok true /\
  three_line_strike_simplified strike_series 3 = Ok true.
Proof.
  split; [reflexivity|].
  apply (proj1 (proj2 C4_strict_refines_simplified) strike_series 3).
  reflexivity.
Defined.

(** ** Strict and simplified two black gapping *)

Lemma two_black_gapping_split (data : DataFrame) (index : Z) :
  two_black_gapping data index
  = two_black_gapping_simplified data index &&& is_gap data (index - 1).
Proof.
  unfold two_black_gapping, two_black_gapping_simplified.
  destruct (index <? 3); [reflexivity|].
  remember (is_top data (index - 3) Close 7
            &&& is_black_candle data (index - 2)
            &&& is_black_candle data (index - 1)
            &&& is_black_candle data index) as shape eqn:Eshape.
  destruct shape as [[|]|]; [|reflexivity..].
  symmetry in Eshape. rewrite !and_then_true in Eshape.
  destruct Eshape as [[[_ Hfirst] _] Hlast].
  apply is_black_candle_true in Hfirst, Hlast.
  rewrite is_gap_valid by lia.
  rewrite is_lower_lows_valid, range_up_one by lia.
  cbn [bind and_then forallb].
  destruct (gapb data (index - 1)); destruct (lowerb data index); reflexivity.
Qed.

(** C5: the strict two black gapping is the simplified one in conjunction
    with [is_gap] at [index-1], the gap between bars [index-2] and
    [index-1]; so a strict match is a simplified match; and on
    [gapping_without_gap], where only the gap is missing, the strict
    detector answers [false] at index 3 and the simplified one [true]. *)
Theorem C5_gapping_refines_simplified :
  (forall data index,
      two_black_gapping data index
      = two_black_gapping_simplified data index &&& is_gap data (index - 1)) /\
  (forall data index,
      two_black_gapping data index = Ok true ->
      two_black_gapping_simplified data index = Ok true) /\
  (exists data,
      two_black_gapping_simplified data 3 = Ok true /\
      is_gap data (3 - 1) = Ok false /\
      two_black_gapping data 3 = Ok false).
Proof.
  split; [exact two_black_gapping_split|]. split.
  - intros data index H. rewrite two_black_gapping_split in H.
    rewrite and_then_true in H. tauto.
  - exists gapping_without_gap. repeat split.
Qed.

Lemma C5_gapping_refines_simplified_witness :
  two_black_gapping gapping_series 3 = Ok true /\
  two_black_gapping_simplified gapping_series 3 = Ok true.
Proof.
  split; [reflexivity|].
  apply (proj1 (proj2 C5_gapping_refines_simplified) gapping_series 3).
  reflexivity.
Defined.

(** ** Candle colours *)

Lemma doji_blackb (data : DataFrame) (i : Z) :
  doji data i -> blackb data i = false.
Proof.
  intros H. unfold blackb. now apply Qltb_eq_false.
Qed.

Lemma doji_whiteb (data : DataFrame) (i : Z) :
  doji data i -> whiteb data i = false.
Proof.
  intros H. unfold whiteb, Qgtb. now apply Qltb_eq_false.
Qed.

(** C6: on a valid index [is_black_candle] returns [true] iff
    [close < open] and [is_white_candle] iff [close > open], neither
    raising; on a doji both return [false], and every detector whose
    window asks for a black or a white candle at that bar returns
    [false]. *)
Theorem C6_candle_colours (data : DataFrame) (i : Z) :
  0 <= i < len data ->
  (is_black_candle data i = Ok true <-> black data i) /\
  (is_white_candle data i = Ok true <-> white data i) /\
  (exists b w, is_black_candle data i = Ok b /\ is_white_candle data i = Ok w) /\
  (doji data i ->
   is_black_candle data i = Ok false /\
   is_white_candle data i = Ok false /\
   (forall index,
       3 <= index < len data -> index - 3 <= i <= index ->
       three_line_strike data index = Ok false /\
       three_line_strike_simplified data index = Ok false) /\
   (forall index,
       3 <= index < len data -> index - 2 <= i <= index ->
       two_black_gapping data index = Ok false /\
       two_black_gapping_simplified data index = Ok false) /\
   (forall index high_range,
       2 <= index < len data -> index - 2 <= i <= index ->
       three_black_crows data index high_range = Ok false)).
Proof.
  intros Hi.
  rewrite is_black_candle_valid, is_white_candle_valid by exact Hi.
  split; [|split; [|split]].
  - apply Ok_true_iff. apply Qltb_true.
  - apply Ok_true_iff. apply Qltb_true.
  - eexists. eexists. split; reflexivity.
  - intros Hdoji.
    pose proof (doji_blackb data i Hdoji) as Hb.
    pose proof (doji_whiteb data i Hdoji) as Hw.
    rewrite Hb, Hw.
    split; [reflexivity|]. split; [reflexivity|]. split; [|split].
    + intros index Hindex Hslot.
      rewrite three_line_strike_valid, three_line_strike_simplified_valid
        by exact Hindex.
      unfold three_line_strike_value, three_line_strike_simplified_value.
      assert (Hcases : i = index - 3 \/ i = index - 2 \/ i = index - 1
                       \/ i = index) by lia.
      destruct Hcases as [->|[->|[->| ->]]];
        rewrite ?Hb, ?Hw, ?andb_false_r; split; reflexivity.
    + intros index Hindex Hslot.
      rewrite two_black_gapping_valid, two_black_gapping_simplified_valid
        by exact Hindex.
      unfold two_black_gapping_value, two_black_gapping_simplified_value.
      assert (Hcases : i = index - 2 \/ i = index - 1 \/ i = index) by lia.
      destruct Hcases as [->|[->| ->]];
        rewrite ?Hb, ?andb_false_r; split; reflexivity.
    + intros index high_range Hindex Hslot.
      rewrite three_black_crows_valid by exact Hindex.
      unfold three_black_crows_value.
      assert (Hcases : i = index - 2 \/ i = index - 1 \/ i = index) by lia.
      destruct Hcases as [->|[->| ->]];
        rewrite ?Hb, ?andb_false_r; reflexivity.
Qed.

Lemma C6_candle_colours_witness :
  0 <= 2 < len doji_series /\
  doji doji_series 2 /\
  is_black_candle doji_series 2 = Ok false /\
  is_white_candle doji_series 2 = Ok false.
Proof.
  assert (Hi : 0 <= 2 < len doji_series) by (vm_compute; split; congruence).
  assert (Hdoji : doji doji_series 2) by reflexivity.
  split; [exact Hi|]. split; [exact Hdoji|].
  destruct (C6_candle_colours doji_series 2 Hi) as [_ [_ [_ Hd]]].
  destruct (Hd Hdoji) as [Hb [Hw _]].
  split; [exact Hb|exact Hw].
Defined.

(** ** Lower lows *)

Lemma length_replace_low (data : DataFrame) (k : nat) (v : Q) :
  length (replace_low data k v) = length data.
Proof.
  revert k. induction data as [|row rest IH]; intros [|k]; simpl; auto.
Qed.

Lemma nth_replace_low_same (data : DataFrame) (k : nat) (v : Q) (d : Bar) :
  (k < length data)%nat ->
  nth k (replace_low data k v) d = with_low (nth k data d) v.
Proof.
  revert k. induction data as [|row rest IH]; intros [|k] Hk; simpl in *;
    try lia; [reflexivity|]. apply IH. lia.
Qed.

Lemma nth_replace_low_other (data : DataFrame) (k n : nat) (v : Q) (d : Bar) :
  n <> k -> nth n (replace_low data k v) d = nth n data d.
Proof.
  revert k n. induction data as [|row rest IH]; intros [|k] [|n] Hn; simpl;
    try reflexivity; try congruence. apply IH. congruence.
Qed.

Lemma len_set_low (data : DataFrame) (k : Z) (v : Q) :
  len (set_low data k v) = len data.
Proof.
  unfold set_low, len. destruct (k <? 0); [reflexivity|].
  now rewrite length_replace_low.
Qed.

Lemma price_set_low_same (data : DataFrame) (k : Z) (v : Q) :
  0 <= k < len data -> price (set_low data k v) k Low = v.
Proof.
  intros Hk. unfold price, row_at, set_low.
  destruct (k <? 0) eqn:E; [apply Z.ltb_lt in E; lia|].
  rewrite nth_replace_low_same by (unfold len in Hk; lia). reflexivity.
Qed.

Lemma price_set_low_other (data : DataFrame) (k i : Z) (v : Q) (column : Column) :
  0 <= i -> i <> k ->
  price (set_low data k v) i column = price data i column.
Proof.
  intros Hi Hne. unfold price, row_at, set_low.
  destruct (k <? 0) eqn:E; [reflexivity|]. apply Z.ltb_ge in E.
  rewrite nth_replace_low_other by lia. reflexivity.
Qed.

Lemma forallb_false_at {A : Type} (f : A -> bool) (l : list A) (x : A) :
  In x l -> f x = false -> forallb f l = false.
Proof.
  intros Hin Hx. destruct (forallb f l) eqn:E; [|reflexivity].
  rewrite forallb_forall in E. rewrite (E x Hin) in Hx. discriminate.
Qed.

(** C7: a window with [start == end] is [true]; on [0 <= start <= end]
    inside the series, [is_lower_lows] does not raise and returns [true]
    iff every bar after [start] up to [end] has its low strictly below
    the low of the bar before it; and in such a falling window, putting
    the low of one bar [k] after [start] at or above the low of bar [k-1]
    makes the result [false]. *)
Theorem C7_lower_lows (data : DataFrame) (s e : Z) :
  is_lower_lows data s s = Ok true /\
  (0 <= s /\ s <= e < len data ->
   (exists b, is_lower_lows data s e = Ok b) /\
   (is_lower_lows data s e = Ok true <->
    forall i, s < i <= e ->
              (price data i Low < price data (i - 1) Low)%Q) /\
   (forall k v,
       is_lower_lows data s e = Ok true ->
       s < k <= e ->
       (price data (k - 1) Low <= v)%Q ->
       is_lower_lows (set_low data k v) s e = Ok false)).
Proof.
  split; [apply is_lower_lows_empty; lia|].
  intros Hse. split; [|split].
  - rewrite is_lower_lows_valid by lia. eexists. reflexivity.
  - split.
    + intros H i Hi. now apply (is_lower_lows_true data s e H).
    + intros H. rewrite is_lower_lows_valid by lia. f_equal.
      apply forallb_forall. intros i Hin. apply In_range_up in Hin.
      apply Qltb_true. apply H. lia.
  - intros k v _ Hk Hv.
    rewrite is_lower_lows_valid by (rewrite ?len_set_low; lia). f_equal.
    apply (forallb_false_at _ _ k); [apply In_range_up; lia|].
    unfold lowerb. rewrite price_set_low_same by lia.
    rewrite price_set_low_other by lia.
    now apply Qltb_false.
Qed.

Lemma C7_lower_lows_witness :
  (0 <= 0 /\ 0 <= 3 < len strike_series) /\
  is_lower_lows strike_series 0 3 = Ok true /\
  0 < 2 <= 3 /\
  (price strike_series (2 - 1) Low <= inject_Z 12)%Q /\
  is_lower_lows (set_low strike_series 2 (inject_Z 12)) 0 3 = Ok false.
Proof.
  assert (Hse : 0 <= 0 /\ 0 <= 3 < len strike_series)
    by (vm_compute; repeat split; congruence).
  assert (Hlows : is_lower_lows strike_series 0 3 = Ok true) by reflexivity.
  assert (Hk : 0 < 2 <= 3) by lia.
  assert (Hv : (price strike_series (2 - 1) Low <= inject_Z 12)%Q)
    by (vm_compute; discriminate).
  repeat (split; [assumption|]).
  destruct (proj2 (C7_lower_lows strike_series 0 3) Hse) as [_ [_ Hflip]].
  exact (Hflip 2 (inject_Z 12) Hlows Hk Hv).
Defined.

(** ** Calls do not interfere *)

Lemma computes_ret {A : Type} (a : A) :
  Effectful.computes (Effectful.ret a) (fun _ => Ok a).
Proof. intros w. reflexivity. Qed.

Lemma computes_bind {A B : Type} (p : Effectful.Eff A)
    (k : A -> Effectful.Eff B) (f : DataFrame -> result A)
    (g : A -> DataFrame -> result B) :
  Effectful.computes p f ->
  (forall a, Effectful.computes (k a) (g a)) ->
  Effectful.computes (Effectful.bind p k)
                     (fun data => a <- f data ;; g a data).
Proof.
  intros Hp Hk w. unfold Effectful.bind. rewrite (Hp w).
  destruct (f (Effectful.frame w)) as [a|]; [|reflexivity].
  apply Hk.
Qed.

Lemma computes_and_then (x y : Effectful.Eff bool)
    (f g : DataFrame -> result bool) :
  Effectful.computes x f -> Effectful.computes y g ->
  Effectful.computes (Effectful.and_then x y)
                     (fun data => f data &&& g data).
Proof.
  intros Hx Hy. unfold Effectful.and_then, and_then.
  apply computes_bind; [exact Hx|].
  intros [|]; [exact Hy|apply computes_ret].
Qed.

Lemma computes_call_tools {A : Type} (f : DataFrame -> result A) :
  Effectful.computes (Effectful.call_tools f) f.
Proof. intros w. reflexivity. Qed.

Lemma computes_read_iloc (i : Z) :
  Effectful.computes (Effectful.read_iloc i) (fun data => iloc data i).
Proof. intros w. reflexivity. Qed.

Lemma computes_compare (i j : Z) (test : Bar -> Bar -> bool) :
  Effectful.computes
    (Effectful.bind (Effectful.read_iloc i) (fun a =>
     Effectful.bind (Effectful.read_iloc j) (fun b =>
     Effectful.ret (test a b))))
    (fun data => a <- iloc data i ;; b <- iloc data j ;; Ok (test a b)).
Proof.
  apply (computes_bind _ _ _
           (fun a data => b <- iloc data j ;; Ok (test a b)));
    [apply computes_read_iloc|].
  intros a.
  apply (computes_bind _ _ _ (fun b _ => Ok (test a b)));
    [apply computes_read_iloc|].
  intros b. apply computes_ret.
Qed.

Lemma computes_scan (indices : list Z) :
  Effectful.computes (Effectful.near_high_scan indices)
                     (fun data => near_high_scan data indices).
Proof.
  unfold Effectful.near_high_scan, near_high_scan.
  assert (Hfrom : forall (flag : Effectful.Eff bool)
                         (pure : DataFrame -> result bool),
             Effectful.computes flag pure ->
             Effectful.computes
               (fold_left (fun flag i =>
                             Effectful.bind flag (fun is_near_high =>
                             Effectful.bind (Effectful.is_top i High 5)
                               (fun top =>
                             Effectful.ret (is_near_high || top))))
                          indices flag)
               (fun data =>
                  fold_left (fun flag i =>
                               is_near_high <- flag ;;
                               top <- is_top data i High 5 ;;
                               Ok (is_near_high || top))
                            indices (pure data))).
  { induction indices as [|i rest IH]; intros flag pure Hflag;
      [exact Hflag|].
    cbn [fold_left].
    apply (IH _ (fun data =>
                   is_near_high <- pure data ;;
                   top <- is_top data i High 5 ;;
                   Ok (is_near_high || top))).
    apply (computes_bind _ _ _
             (fun is_near_high data =>
                top <- is_top data i High 5 ;; Ok (is_near_high || top)));
      [exact Hflag|].
    intros is_near_high.
    apply (computes_bind _ _ _
             (fun top _ => Ok (is_near_high || top)));
      [apply computes_call_tools|].
    intros top. apply computes_ret. }
  apply (Hfrom _ (fun _ => Ok false)). apply computes_ret.
Qed.

Ltac computes_chain :=
  repeat first
    [ apply computes_and_then
    | apply computes_call_tools
    | apply computes_compare ].

Lemma computes_three_line_strike (index : Z) :
  Effectful.computes (Effectful.three_line_strike index)
                     (fun data => three_line_strike data index).
Proof.
  unfold Effectful.three_line_strike, three_line_strike.
  destruct (index <? 3); [apply computes_ret|].
  unfold Effectful.is_lower_lows, Effectful.is_black_candle,
    Effectful.is_white_candle.
  computes_chain.
Qed.

Lemma computes_three_line_strike_simplified (index : Z) :
  Effectful.computes (Effectful.three_line_strike_simplified index)
                     (fun data => three_line_strike_simplified data index).
Proof.
  unfold Effectful.three_line_strike_simplified,
    three_line_strike_simplified.
  destruct (index <? 3); [apply computes_ret|].
  unfold Effectful.is_lower_lows, Effectful.is_black_candle,
    Effectful.is_white_candle.
  computes_chain.
Qed.

Lemma computes_two_black_gapping (index : Z) :
  Effectful.computes (Effectful.two_black_gapping index)
                     (fun data => two_black_gapping data index).
Proof.
  unfold Effectful.two_black_gapping, two_black_gapping.
  destruct (index <? 3); [apply computes_ret|].
  unfold Effectful.is_lower_lows, Effectful.is_black_candle,
    Effectful.is_top, Effectful.is_gap.
  computes_chain.
Qed.

Lemma computes_two_black_gapping_simplified (index : Z) :
  Effectful.computes (Effectful.two_black_gapping_simplified index)
                     (fun data => two_black_gapping_simplified data index).
Proof.
  unfold Effectful.two_black_gapping_simplified,
    two_black_gapping_simplified.
  destruct (index <? 3); [apply computes_ret|].
  unfold Effectful.is_lower_lows, Effectful.is_black_candle,
    Effectful.is_top.
  computes_chain.
Qed.

Lemma computes_three_black_crows (index high_range : Z) :
  Effectful.computes (Effectful.three_black_crows index high_range)
                     (fun data => three_black_crows data index high_range).
Proof.
  unfold Effectful.three_black_crows, three_black_crows.
  apply (computes_bind _ _ _
           (fun is_near_high data =>
              Ok is_near_high
              &&& is_black_candle data (index - 2)
              &&& is_black_candle data (index - 1)
              &&& is_black_candle data index
              &&& is_lower_lows data (index - 1) index));
    [apply computes_scan|].
  intros is_near_high.
  unfold Effectful.is_lower_lows, Effectful.is_black_candle.
  repeat first
    [ apply computes_and_then
    | apply computes_call_tools
    | apply (computes_ret is_near_high) ].
Qed.

Lemma computes_call (c : Call) :
  Effectful.computes (Effectful.call c) (fun data => detect data c).
Proof.
  destruct c; cbn [Effectful.call detect].
  - apply computes_three_line_strike.
  - apply computes_three_line_strike_simplified.
  - apply computes_two_black_gapping.
  - apply computes_two_black_gapping_simplified.
  - apply computes_three_black_crows.
Qed.

Lemma run_answers (calls : list Call) (w : Effectful.World) :
  Effectful.run calls w = (map (detect (Effectful.frame w)) calls, w).
Proof.
  induction calls as [|c rest IH]; [reflexivity|].
  cbn [Effectful.run map]. rewrite (computes_call c w), IH. reflexivity.
Qed.

(** A program that assigns is seen by the world: the programs of this
    model are not pure by their type. *)
Lemma an_assignment_changes_the_world (name : string) (value : Z)
    (w : Effectful.World) :
  snd (Effectful.assign_global name value w) <> w.
Proof.
  destruct w as [data store]. cbn. intros E.
  assert (Hlen : length ((name, value) :: store) = length store)
    by congruence.
  cbn in Hlen. lia.
Qed.

(** C8: every detector, run as a program on a world that it could change,
    leaves the series object and the module variables as it found them,
    and its result (a boolean or an error) is a function of the series
    and its arguments alone.  So after any earlier calls on the same
    world, two calls with the same arguments both give the answer that a
    first call gives, and the world is still the one the caller started
    with. *)
Theorem C8_deterministic_stateless (earlier : list Call) (c : Call)
    (w : Effectful.World) :
  Effectful.call c w = (detect (Effectful.frame w) c, w) /\
  Effectful.run (earlier ++ [c; c]) w
  = (map (detect (Effectful.frame w)) earlier
     ++ [detect (Effectful.frame w) c; detect (Effectful.frame w) c], w).
Proof.
  split; [apply computes_call|].
  rewrite run_answers, map_app. reflexivity.
Qed.

(** ** Matches lie inside the series *)

Lemma is_black_candle_true_b (data : DataFrame) (i : Z) :
  is_black_candle data i = Ok true -> 0 <= i < len data /\ blackb data i = true.
Proof.
  unfold is_black_candle. intros H. apply with_bar_true in H as [Hi H].
  split; [exact Hi|]. now injection H.
Qed.

Lemma is_white_candle_true_b (data : DataFrame) (i : Z) :
  is_white_candle data i = Ok true -> 0 <= i < len data /\ whiteb data i = true.
Proof.
  unfold is_white_candle. intros H. apply with_bar_true in H as [Hi H].
  split; [exact Hi|]. now injection H.
Qed.

Lemma whiteb_not_blackb (data : DataFrame) (i : Z) :
  whiteb data i = true -> blackb data i = false.
Proof.
  unfold whiteb, blackb, Qgtb. intros H. apply Qltb_true in H.
  apply Qltb_false. now apply Qlt_le_weak.
Qed.

Lemma three_line_strike_simplified_parts (data : DataFrame) (index : Z) :
  three_line_strike_simplified data index = Ok true ->
  3 <= index < len data /\
  whiteb data index = true /\
  (forall m, index - 3 <= m <= index - 1 -> blackb data m = true).
Proof.
  unfold three_line_strike_simplified.
  destruct (index <? 3) eqn:E; [discriminate|]. apply Z.ltb_ge in E.
  rewrite !and_then_true. intros [[[[[_ H3] H2] H1] Hw] _].
  apply is_black_candle_true_b in H3 as [_ H3], H2 as [_ H2], H1 as [_ H1].
  apply is_white_candle_true_b in Hw as [Hi Hw].
  split; [lia|]. split; [exact Hw|].
  intros m Hm.
  assert (Hcases : m = index - 3 \/ m = index - 2 \/ m = index - 1) by lia.
  destruct Hcases as [->|[->| ->]]; assumption.
Qed.

Lemma three_line_strike_implies_simplified (data : DataFrame) (index : Z) :
  three_line_strike data index = Ok true ->
  three_line_strike_simplified data index = Ok true.
Proof.
  intros H. rewrite three_line_strike_split in H.
  rewrite !and_then_true in H. tauto.
Qed.

Lemma two_black_gapping_simplified_parts (data : DataFrame) (index : Z) :
  two_black_gapping_simplified data index = Ok true ->
  3 <= index < len data /\
  (forall m, index - 2 <= m <= index -> blackb data m = true).
Proof.
  unfold two_black_gapping_simplified.
  destruct (index <? 3) eqn:E; [discriminate|]. apply Z.ltb_ge in E.
  rewrite !and_then_true. intros [[[[_ H2] H1] H0] _].
  apply is_black_candle_true_b in H2 as [_ H2], H1 as [_ H1], H0 as [Hi H0].
  split; [lia|].
  intros m Hm.
  assert (Hcases : m = index - 2 \/ m = index - 1 \/ m = index) by lia.
  destruct Hcases as [->|[->| ->]]; assumption.
Qed.

Lemma two_black_gapping_implies_simplified (data : DataFrame) (index : Z) :
  two_black_gapping data index = Ok true ->
  two_black_gapping_simplified data index = Ok true.
Proof.
  intros H. rewrite two_black_gapping_split in H.
  rewrite and_then_true in H. tauto.
Qed.

Lemma three_black_crows_parts (data : DataFrame) (index high_range : Z) :
  three_black_crows data index high_range = Ok true ->
  (3 <= index < len data /\ 1 <= high_range) /\
  (forall m, index - 2 <= m <= index -> blackb data m = true).
Proof.
  intros H.
  assert (Hblack : is_black_candle data (index - 2) = Ok true /\
                   is_black_candle data (index - 1) = Ok true /\
                   is_black_candle data index = Ok true).
  { unfold three_black_crows in H.
    destruct (near_high_scan data (scan_indices index high_range))
      as [flag|]; [|discriminate].
    cbn [bind] in H. rewrite !and_then_true in H. tauto. }
  destruct Hblack as [H2 [H1 H0]].
  apply is_black_candle_true_b in H2 as [_ H2], H1 as [_ H1], H0 as [Hi H0].
  apply three_black_crows_true_iff in H; [|lia].
  destruct H as [[i [Hrange [Hpos _]]] _].
  split; [lia|].
  intros m Hm.
  assert (Hcases : m = index - 2 \/ m = index - 1 \/ m = index) by lia.
  destruct Hcases as [->|[->| ->]]; assumption.
Qed.

(** X1: whichever of the five detectors reports a match, the index is at
    least 3 and inside the series; [three_black_crows], which has no guard
    of its own, needs a positive [high_range] as well. *)
Theorem match_lies_inside_series (data : DataFrame) (index high_range : Z) :
  three_line_strike data index = Ok true \/
  three_line_strike_simplified data index = Ok true \/
  two_black_gapping data index = Ok true \/
  two_black_gapping_simplified data index = Ok true \/
  three_black_crows data index high_range = Ok true ->
  3 <= index < len data /\
  (three_black_crows data index high_range = Ok true -> 1 <= high_range).
Proof.
  intros H. split.
  - destruct H as [H|[H|[H|[H|H]]]].
    + apply three_line_strike_implies_simplified in H.
      now apply three_line_strike_simplified_parts in H.
    + now apply three_line_strike_simplified_parts in H.
    + apply two_black_gapping_implies_simplified in H.
      now apply two_black_gapping_simplified_parts in H.
    + now apply two_black_gapping_simplified_parts in H.
    + now apply three_black_crows_parts in H.
  - intros Hc. now apply three_black_crows_parts in Hc.
Qed.

Lemma match_lies_inside_series_witness :
  three_black_crows crows_after_high 9 5 = Ok true /\
  3 <= 9 < len crows_after_high.
Proof.
  split; [reflexivity|].
  apply (match_lies_inside_series crows_after_high 9 5).
  right. right. right. right. reflexivity.
Defined.

(** ** The simplified detectors on valid positions *)

Lemma three_line_strike_simplified_value_true (data : DataFrame) (index : Z) :
  three_line_strike_simplified_value data index = true <->
  strike_shape data index.
Proof.
  unfold three_line_strike_simplified_value, strike_shape, black, white,
    lowerb, blackb, whiteb, Qgtb.
  cbn [forallb].
  rewrite !andb_true_iff, !Qltb_true.
  replace (index - 2 - 1) with (index - 3) by lia.
  replace (index - 1 - 1) with (index - 2) by lia.
  tauto.
Qed.

(** X2: on a valid index of at least 3 the simplified three line strike
    does not raise, and matches iff the lows fall strictly over the four
    bars of the window, the first three bars are bearish, the last is
    bullish and closes above the first bar's high. *)
Theorem three_line_strike_simplified_iff (data : DataFrame) (index : Z) :
  3 <= index < len data ->
  (exists b, three_line_strike_simplified data index = Ok b) /\
  (three_line_strike_simplified data index = Ok true <->
   strike_shape data index).
Proof.
  intros Hi. rewrite three_line_strike_simplified_valid by exact Hi. split.
  - eexists. reflexivity.
  - apply Ok_true_iff. apply three_line_strike_simplified_value_true.
Qed.

Lemma three_line_strike_simplified_iff_witness :
  3 <= 3 < len strike_open_above_low /\
  three_line_strike_simplified strike_open_above_low 3 = Ok true /\
  strike_shape strike_open_above_low 3.
Proof.
  assert (Hi : 3 <= 3 < len strike_open_above_low)
    by (vm_compute; split; congruence).
  split; [exact Hi|]. split; [reflexivity|].
  apply (proj2 (three_line_strike_simplified_iff strike_open_above_low 3 Hi)).
  reflexivity.
Defined.

(** X3: on a valid index of at least 3 the simplified two black gapping
    does not raise, and matches iff bar [index-3] holds the maximum close
    of the 7 bars ending there (as far as the series reaches back), bars
    [index-2], [index-1] and [index] are bearish, and the low of bar
    [index] is below the low of bar [index-1]. *)
Theorem two_black_gapping_simplified_iff (data : DataFrame) (index : Z) :
  3 <= index < len data ->
  (exists b, two_black_gapping_simplified data index = Ok b) /\
  (two_black_gapping_simplified data index = Ok true <->
   holds_max data (index - 3) Close 7 /\ crows_shape data index).
Proof.
  intros Hi. rewrite two_black_gapping_simplified_valid by exact Hi. split.
  - eexists. reflexivity.
  - apply Ok_true_iff.
    rewrite <- (topb_holds_max data (index - 3) Close 7) by lia.
    unfold two_black_gapping_simplified_value, crows_shape, black, blackb,
      lowerb.
    cbn [forallb].
    rewrite !andb_true_iff, !Qltb_true. tauto.
Qed.

Lemma two_black_gapping_simplified_iff_witness :
  3 <= 3 < len gapping_without_gap /\
  two_black_gapping_simplified gapping_without_gap 3 = Ok true /\
  holds_max gapping_without_gap (3 - 3) Close 7 /\
  crows_shape gapping_without_gap 3.
Proof.
  assert (Hi : 3 <= 3 < len gapping_without_gap)
    by (vm_compute; split; congruence).
  split; [exact Hi|]. split; [reflexivity|].
  apply (proj2 (two_black_gapping_simplified_iff gapping_without_gap 3 Hi)).
  reflexivity.
Defined.

(** ** Patterns that exclude each other *)

Lemma strike_bar_is_not_black (data : DataFrame) (index : Z) :
  three_line_strike_simplified data index = Ok true ->
  blackb data index = false.
Proof.
  intros H. apply three_line_strike_simplified_parts in H as [_ [Hw _]].
  now apply whiteb_not_blackb.
Qed.

(** X4: the bar that completes a three line strike (strict or simplified)
    is bullish, so neither form of two black gapping nor three black
    crows matches at that index or at the next two: each of them needs
    that bar bearish. *)
Theorem strike_excludes_bearish_patterns (data : DataFrame) (index k : Z) :
  three_line_strike data index = Ok true \/
  three_line_strike_simplified data index = Ok true ->
  0 <= k <= 2 ->
  two_black_gapping data (index + k) <> Ok true /\
  two_black_gapping_simplified data (index + k) <> Ok true /\
  (forall high_range,
      three_black_crows data (index + k) high_range <> Ok true).
Proof.
  intros Hstrike Hk.
  assert (Hs : three_line_strike_simplified data index = Ok true).
  { destruct Hstrike as [H|H]; [|exact H].
    now apply three_line_strike_implies_simplified. }
  pose proof (strike_bar_is_not_black data index Hs) as Hnot.
  assert (Hgap : two_black_gapping_simplified data (index + k) <> Ok true).
  { intros H. apply two_black_gapping_simplified_parts in H as [_ Hb].
    rewrite (Hb index) in Hnot by lia. discriminate. }
  split; [|split].
  - intros H. apply Hgap. now apply two_black_gapping_implies_simplified.
  - exact Hgap.
  - intros high_range H. apply three_black_crows_parts in H as [_ Hb].
    rewrite (Hb index) in Hnot by lia. discriminate.
Qed.

Lemma strike_excludes_bearish_patterns_witness :
  three_line_strike_simplified strike_series 3 = Ok true /\
  0 <= 0 <= 2 /\
  two_black_gapping_simplified strike_series (3 + 0) <> Ok true.
Proof.
  split; [reflexivity|]. split; [lia|].
  apply (strike_excludes_bearish_patterns strike_series 3 0);
    [right; reflexivity|lia].
Defined.

(** X5: after a three line strike (strict or simplified) at [index], none
    of the next three indices is a three line strike of either form: bar
    [index] is bullish and each of those windows needs it bearish. *)
Theorem no_strike_in_next_three_bars (data : DataFrame) (index k : Z) :
  three_line_strike data index = Ok true \/
  three_line_strike_simplified data index = Ok true ->
  1 <= k <= 3 ->
  three_line_strike data (index + k) <> Ok true /\
  three_line_strike_simplified data (index + k) <> Ok true.
Proof.
  intros Hstrike Hk.
  assert (Hs : three_line_strike_simplified data index = Ok true).
  { destruct Hstrike as [H|H]; [|exact H].
    now apply three_line_strike_implies_simplified. }
  pose proof (strike_bar_is_not_black data index Hs) as Hnot.
  assert (Hnext : three_line_strike_simplified data (index + k) <> Ok true).
  { intros H. apply three_line_strike_simplified_parts in H as [_ [_ Hb]].
    rewrite (Hb index) in Hnot by lia. discriminate. }
  split; [|exact Hnext].
  intros H. apply Hnext. now apply three_line_strike_implies_simplified.
Qed.

Lemma no_strike_in_next_three_bars_witness :
  three_line_strike strike_series 3 = Ok true /\
  1 <= 1 <= 3 /\
  three_line_strike_simplified strike_series (3 + 1) <> Ok true.
Proof.
  split; [reflexivity|]. split; [lia|].
  apply (no_strike_in_next_three_bars strike_series 3 1);
    [left; reflexivity|lia].
Defined.

(** ** The reach of the near-high scan *)

(** X6: widening [high_range] never loses a three black crows match. *)
Theorem three_black_crows_monotone (data : DataFrame) (index h h' : Z) :
  h <= h' ->
  three_black_crows data index h = Ok true ->
  three_black_crows data index h' = Ok true.
Proof.
  intros Hh H.
  assert (Hi : index < len data)
    by (apply three_black_crows_parts in H; lia).
  apply three_black_crows_true_iff in H; [|exact Hi].
  apply three_black_crows_true_iff; [exact Hi|].
  destruct H as [[i [Hrange [Hpos Hmax]]] Hshape].
  split; [|exact Hshape].
  exists i. repeat split; try lia. exact Hmax.
Qed.

Lemma three_black_crows_monotone_witness :
  1 <= 5 /\
  three_black_crows crows_after_high 9 1 = Ok true /\
  three_black_crows crows_after_high 9 5 = Ok true.
Proof.
  split; [lia|]. split; [reflexivity|].
  apply (three_black_crows_monotone crows_after_high 9 1 5);
    [lia|reflexivity].
Defined.

(** ** Later bars do not change earlier answers *)

Lemma bar_at_app (data future : DataFrame) (i : Z) :
  i < len data -> bar_at (data ++ future) i = bar_at data i.
Proof.
  intros Hi. unfold bar_at. destruct (i <? 0) eqn:E; [reflexivity|].
  apply Z.ltb_ge in E. rewrite nth_error_app1; [reflexivity|].
  unfold len in Hi. lia.
Qed.

Lemma row_at_app (data future : DataFrame) (i : Z) :
  0 <= i < len data -> row_at (data ++ future) i = row_at data i.
Proof.
  intros Hi. unfold row_at. apply app_nth1. unfold len in Hi. lia.
Qed.

Lemma len_app (data future : DataFrame) :
  len (data ++ future) = len data + len future.
Proof.
  unfold len. rewrite length_app. lia.
Qed.

Lemma iloc_app (data future : DataFrame) (i : Z) :
  0 <= i < len data -> iloc (data ++ future) i = iloc data i.
Proof.
  intros Hi. rewrite (iloc_valid data i Hi).
  rewrite iloc_valid by (rewrite len_app; unfold len at 2; lia).
  now rewrite row_at_app.
Qed.

Lemma window_app (data future : DataFrame) (i period : Z) :
  i < len data -> window (data ++ future) i period = window data i period.
Proof.
  intros Hi. unfold window. f_equal.
  rewrite firstn_app.
  replace (Z.to_nat (i + 1) - length data)%nat with 0%nat
    by (unfold len in Hi; lia).
  cbn [firstn]. apply app_nil_r.
Qed.

Lemma is_black_candle_app (data future : DataFrame) (i : Z) :
  i < len data ->
  is_black_candle (data ++ future) i = is_black_candle data i.
Proof.
  intros Hi. unfold is_black_candle, with_bar. now rewrite bar_at_app.
Qed.

Lemma is_white_candle_app (data future : DataFrame) (i : Z) :
  i < len data ->
  is_white_candle (data ++ future) i = is_white_candle data i.
Proof.
  intros Hi. unfold is_white_candle, with_bar. now rewrite bar_at_app.
Qed.

Lemma lower_low_app (data future : DataFrame) (i : Z) :
  i < len data -> lower_low (data ++ future) i = lower_low data i.
Proof.
  intros Hi. unfold lower_low, with_bar.
  now rewrite !bar_at_app by lia.
Qed.

Lemma is_gap_app (data future : DataFrame) (i : Z) :
  i < len data -> is_gap (data ++ future) i = is_gap data i.
Proof.
  intros Hi. unfold is_gap, with_bar.
  now rewrite !bar_at_app by lia.
Qed.

Lemma is_top_app (data future : DataFrame) (i : Z) (column : Column)
    (period : Z) :
  i < len data ->
  is_top (data ++ future) i column period = is_top data i column period.
Proof.
  intros Hi. unfold is_top, with_bar.
  now rewrite bar_at_app, window_app by lia.
Qed.

Lemma is_lower_lows_app (data future : DataFrame) (s e : Z) :
  e < len data ->
  is_lower_lows (data ++ future) s e = is_lower_lows data s e.
Proof.
  intros He. unfold is_lower_lows. f_equal. apply map_ext_in.
  intros i Hi. apply In_range_up in Hi. apply lower_low_app. lia.
Qed.

Lemma near_high_scan_app (data future : DataFrame) (indices : list Z) :
  (forall i, In i indices -> i < len data) ->
  near_high_scan (data ++ future) indices = near_high_scan data indices.
Proof.
  unfold near_high_scan. generalize (@Ok bool false) as flag.
  induction indices as [|i rest IH]; intros flag Hin; [reflexivity|].
  cbn [fold_left]. rewrite is_top_app by (apply Hin; now left).
  apply IH. intros j Hj. apply Hin. now right.
Qed.

(** X7: no detector looks ahead.  Appending later bars to the series
    leaves the answer at every index of the original series unchanged,
    be it [true], [false] or an error. *)
Theorem detectors_do_not_look_ahead (data future : DataFrame)
    (index high_range : Z) :
  index < len data ->
  three_line_strike (data ++ future) index = three_line_strike data index /\
  three_line_strike_simplified (data ++ future) index
  = three_line_strike_simplified data index /\
  two_black_gapping (data ++ future) index = two_black_gapping data index /\
  two_black_gapping_simplified (data ++ future) index
  = two_black_gapping_simplified data index /\
  three_black_crows (data ++ future) index high_range
  = three_black_crows data index high_range.
Proof.
  intros Hi.
  assert (Hcrows : three_black_crows (data ++ future) index high_range
                   = three_black_crows data index high_range).
  { unfold three_black_crows.
    rewrite near_high_scan_app
      by (intros i Hin; apply scan_indices_below in Hin; lia).
    now rewrite !is_black_candle_app, is_lower_lows_app by lia. }
  unfold three_line_strike, three_line_strike_simplified, two_black_gapping,
    two_black_gapping_simplified.
  destruct (index <? 3) eqn:E; [repeat split; exact Hcrows|].
  apply Z.ltb_ge in E.
  rewrite !is_black_candle_app, !is_white_candle_app, !is_lower_lows_app,
    !is_top_app, !is_gap_app, !iloc_app by lia.
  repeat split. exact Hcrows.
Qed.

Lemma detectors_do_not_look_ahead_witness :
  3 < len strike_series /\
  three_line_strike (strike_series ++ three_falling_bars) 3 = Ok true.
Proof.
  assert (Hi : 3 < len strike_series) by reflexivity.
  split; [exact Hi|].
  destruct (detectors_do_not_look_ahead strike_series three_falling_bars
              3 5 Hi) as [H _].
  rewrite H. reflexivity.
Defined.

(** ** The bars a three line strike reads *)

Lemma price_same_bars (data data' : DataFrame) (lo hi j : Z) (column : Column) :
  same_bars data data' lo hi -> lo <= j <= hi ->
  price data j column = price data' j column.
Proof.
  intros H Hj. unfold price. now rewrite (H j Hj).
Qed.

(** X8: a three line strike, strict or simplified, depends on the four
    bars [index-3..index] alone: two series that hold the same bars there,
    with [index] valid in both, get the same answer. *)
Theorem three_line_strike_reads_four_bars (data data' : DataFrame) (index : Z) :
  3 <= index < len data -> index < len data' ->
  same_bars data data' (index - 3) index ->
  three_line_strike data index = three_line_strike data' index /\
  three_line_strike_simplified data index
  = three_line_strike_simplified data' index.
Proof.
  intros Hi Hi' Hsame.
  rewrite !three_line_strike_valid, !three_line_strike_simplified_valid
    by lia.
  unfold three_line_strike_value, three_line_strike_simplified_value,
    lowerb, blackb, whiteb.
  cbn [forallb].
  replace (index - 2 - 1) with (index - 3) by lia.
  replace (index - 1 - 1) with (index - 2) by lia.
  rewrite !(price_same_bars data data' (index - 3) index) by (assumption || lia).
  split; reflexivity.
Qed.

Lemma three_line_strike_reads_four_bars_witness :
  3 <= 3 < len strike_series /\
  3 < len (strike_series ++ three_falling_bars) /\
  same_bars strike_series (strike_series ++ three_falling_bars) (3 - 3) 3 /\
  three_line_strike strike_series 3
  = three_line_strike (strike_series ++ three_falling_bars) 3.
Proof.
  assert (Hi : 3 <= 3 < len strike_series) by (vm_compute; split; congruence).
  assert (Hi' : 3 < len (strike_series ++ three_falling_bars)) by reflexivity.
  assert (Hsame : same_bars strike_series
                    (strike_series ++ three_falling_bars) (3 - 3) 3).
  { intros j Hj.
    assert (Hcases : j = 0 \/ j = 1 \/ j = 2 \/ j = 3) by lia.
    destruct Hcases as [->|[->|[->| ->]]]; reflexivity. }
  split; [exact Hi|]. split; [exact Hi'|]. split; [exact Hsame|].
  apply (three_line_strike_reads_four_bars strike_series
           (strike_series ++ three_falling_bars) 3 Hi Hi' Hsame).
Defined.

(** ** Notifications of the strategy template *)

(** X9: [notify_order] leaves the strategy without a pending order exactly
    when there was none before or the status is neither [Submitted] nor
    [Accepted]; this includes [Created], [Partial] and [Expired], which
    the method has no branch for.  On [Submitted] and [Accepted] the
    whole state is untouched. *)
Theorem notify_order_pending_order (s : Strategy.State) (o : Strategy.Order) :
  (Strategy.order (Strategy.notify_order s o) = None <->
   Strategy.order s = None \/
   (Strategy.status o <> Strategy.Submitted /\
    Strategy.status o <> Strategy.Accepted)) /\
  (Strategy.status o = Strategy.Submitted \/
   Strategy.status o = Strategy.Accepted ->
   Strategy.notify_order s o = s).
Proof.
  unfold Strategy.notify_order. split.
  - destruct (Strategy.status o) eqn:E; cbn; split; intros H;
      try (right; split; discriminate); try reflexivity.
    + now left.
    + destruct H as [H|[H _]]; [exact H|congruence].
    + now left.
    + destruct H as [H|[_ H]]; [exact H|congruence].
  - intros [H|H]; rewrite H; reflexivity.
Qed.

Lemma notify_order_pending_order_witness :
  Strategy.status (Strategy.mkOrder Strategy.Submitted true false
                     (Strategy.mkExecuted 0 0 0 0)) = Strategy.Submitted /\
  Strategy.notify_order Strategy.waiting
    (Strategy.mkOrder Strategy.Submitted true false
       (Strategy.mkExecuted 0 0 0 0))
  = Strategy.waiting.
Proof.
  split; [reflexivity|].
  apply (proj2 (notify_order_pending_order Strategy.waiting
                  (Strategy.mkOrder Strategy.Submitted true false
                     (Strategy.mkExecuted 0 0 0 0)))).
  left. reflexivity.
Defined.

(** X10: [notify_order] never touches the parameter, the date or the bar
    count; it keeps every line printed so far and adds at most one, none
    exactly on the silent notifications; and it sets [bar_executed] to
    [len(self)] on a [Completed] order, buy, sell or neither, and on no
    other status. *)
Theorem notify_order_effects (s : Strategy.State) (o : Strategy.Order) :
  let s' := Strategy.notify_order s o in
  Strategy.notifytrade s' = Strategy.notifytrade s /\
  Strategy.today s' = Strategy.today s /\
  Strategy.bars s' = Strategy.bars s /\
  (exists lines,
      Strategy.stdout s' = Strategy.stdout s ++ lines /\
      (length lines <= 1)%nat /\
      (lines = [] <-> Strategy.silent o = true)) /\
  Strategy.bar_executed s'
  = (if Strategy.Status_eqb (Strategy.status o) Strategy.Completed
     then Some (Strategy.bars s) else Strategy.bar_executed s).
Proof.
  unfold Strategy.notify_order, Strategy.silent.
  destruct (Strategy.status o) eqn:E; cbn;
    try (repeat split; try reflexivity;
         exists []; rewrite app_nil_r; repeat split; auto; fail).
  - destruct (Strategy.isbuy o); [|destruct (Strategy.issell o)]; cbn;
      repeat split; try reflexivity;
      solve [ eexists; split; [reflexivity|]; split; [cbn; lia|];
              split; discriminate
            | exists []; rewrite app_nil_r; repeat split; auto ].
  - repeat split; try reflexivity.
    eexists; split; [reflexivity|]; split; [cbn; lia|]; split; discriminate.
  - repeat split; try reflexivity.
    eexists; split; [reflexivity|]; split; [cbn; lia|]; split; discriminate.
  - repeat split; try reflexivity.
    eexists; split; [reflexivity|]; split; [cbn; lia|]; split; discriminate.
Qed.

Lemma notify_order_effects_witness :
  Strategy.bar_executed
    (Strategy.notify_order Strategy.waiting
       (Strategy.mkOrder Strategy.Completed false false
          (Strategy.mkExecuted 0 0 0 0)))
  = Some (Strategy.bars Strategy.waiting).
Proof.
  destruct (notify_order_effects Strategy.waiting
              (Strategy.mkOrder Strategy.Completed false false
                 (Strategy.mkExecuted 0 0 0 0))) as [_ [_ [_ [_ H]]]].
  exact H.
Defined.

(** X11: [notify_trade] changes nothing but the printed lines.  With
    [notifytrade] a string, the declared default ["False"] and the string
    ["True"] alike, it prints nothing; with the boolean [True] it prints
    exactly one line, the opening one whenever the trade has just been
    opened, even if it is closed as well. *)
Theorem notify_trade_prints (s : Strategy.State) (trade : Strategy.Trade) :
  let s' := Strategy.notify_trade s trade in
  (Strategy.notifytrade s' = Strategy.notifytrade s /\
   Strategy.today s' = Strategy.today s /\
   Strategy.bars s' = Strategy.bars s /\
   Strategy.bar_executed s' = Strategy.bar_executed s /\
   Strategy.order s' = Strategy.order s) /\
  (forall text, Strategy.notifytrade s = Strategy.PyStr text -> s' = s) /\
  (Strategy.notifytrade s = Strategy.PyBool true ->
   exists txt,
     Strategy.stdout s' = Strategy.stdout s ++ [(Strategy.today s, txt)] /\
     (Strategy.justopened trade = true ->
      txt = Strategy.TradeOpened (Strategy.trade_size trade)
                                 (Strategy.trade_price trade))).
Proof.
  unfold Strategy.notify_trade. cbn zeta. split; [|split].
  - destruct (Strategy.equals_True (Strategy.notifytrade s));
      [|repeat split].
    destruct (Strategy.justopened trade);
      [|destruct (Strategy.isclosed trade)]; repeat split.
  - intros text H. rewrite H. reflexivity.
  - intros H. rewrite H. cbn.
    destruct (Strategy.justopened trade);
      [|destruct (Strategy.isclosed trade)];
      eexists; (split; [reflexivity|]); try discriminate.
    reflexivity.
Qed.

Lemma notify_trade_prints_witness :
  Strategy.notifytrade Strategy.waiting = Strategy.PyStr "False" /\
  Strategy.notify_trade Strategy.waiting
    (Strategy.mkTrade true false 1 2 0)
  = Strategy.waiting.
Proof.
  split; [reflexivity|].
  destruct (notify_trade_prints Strategy.waiting
              (Strategy.mkTrade true false 1 2 0)) as [_ [H _]].
  apply (H "False"%string). reflexivity.
Defined.

(** ** The file name of a strategy *)

Lemma isspace_lower_char (c : ascii) :
  Backtest.isspace (Backtest.lower_char c) = Backtest.isspace c.
Proof.
  destruct c as [[] [] [] [] [] [] [] []]; reflexivity.
Qed.

Lemma isupper_lower_char (c : ascii) :
  Backtest.isupper (Backtest.lower_char c) = false.
Proof.
  destruct c as [[] [] [] [] [] [] [] []]; reflexivity.
Qed.

Lemma lower_char_fixed (c : ascii) :
  Backtest.isupper c = false -> Backtest.lower_char c = c.
Proof.
  unfold Backtest.lower_char. now intros ->.
Qed.

Lemma is_ascii_lower_char (c : ascii) :
  Backtest.is_ascii c = true ->
  Backtest.is_ascii (Backtest.lower_char c) = true.
Proof.
  destruct c as [[] [] [] [] [] [] [] []]; intros H; try reflexivity;
    discriminate H.
Qed.

Lemma split_keeps (P : ascii -> Prop) (s : Backtest.text) :
  Forall P s -> Forall (Forall P) (Backtest.split s).
Proof.
  induction s as [|c rest IH]; intros H; [constructor|].
  inversion H as [|? ? Hc Hrest]; subst. specialize (IH Hrest).
  cbn [Backtest.split].
  destruct (Backtest.isspace c); [exact IH|].
  destruct (Backtest.word_goes_on rest).
  - destruct (Backtest.split rest) as [|word more].
    + repeat constructor. exact Hc.
    + inversion IH; subst. constructor; [now constructor|assumption].
  - constructor; [repeat constructor; exact Hc|exact IH].
Qed.

Lemma split_words (s : Backtest.text) :
  Forall (fun word => word <> [] /\
                      Forall (fun c => Backtest.isspace c = false) word)
         (Backtest.split s).
Proof.
  induction s as [|c rest IH]; [constructor|].
  cbn [Backtest.split].
  destruct (Backtest.isspace c) eqn:Ec; [exact IH|].
  destruct (Backtest.word_goes_on rest).
  - destruct (Backtest.split rest) as [|word more].
    + repeat constructor; [discriminate|exact Ec].
    + inversion IH as [|? ? [_ Hword] Hmore]; subst.
      constructor; [|exact Hmore].
      split; [discriminate|now constructor].
  - constructor; [|exact IH].
    split; [discriminate|repeat constructor; exact Ec].
Qed.

Lemma join_keeps (P : ascii -> Prop) (sep : Backtest.text)
    (words : list Backtest.text) :
  Forall P sep -> Forall (Forall P) words ->
  Forall P (Backtest.join sep words).
Proof.
  intros Hsep. induction words as [|word rest IH]; intros H; [constructor|].
  inversion H as [|? ? Hword Hrest]; subst. specialize (IH Hrest).
  cbn [Backtest.join]. destruct rest as [|next more]; [exact Hword|].
  apply Forall_app. split; [exact Hword|].
  apply Forall_app. split; [exact Hsep|exact IH].
Qed.

Lemma join_nil (sep : Backtest.text) (words : list Backtest.text) :
  Forall (fun word => word <> []) words ->
  Backtest.join sep words = [] -> words = [].
Proof.
  intros H E. destruct words as [|word rest]; [reflexivity|].
  inversion H as [|? ? Hword _]; subst. exfalso.
  cbn [Backtest.join] in E. destruct rest as [|next more].
  - now apply Hword.
  - apply app_eq_nil in E as [E _]. now apply Hword.
Qed.

Lemma split_one_word (s : Backtest.text) :
  Forall (fun c => Backtest.isspace c = false) s ->
  Backtest.split s = match s with [] => [] | _ => [s] end.
Proof.
  induction s as [|c rest IH]; intros H; [reflexivity|].
  inversion H as [|? ? Hc Hrest]; subst. specialize (IH Hrest).
  cbn [Backtest.split]. rewrite Hc, IH.
  destruct rest as [|c' more]; [reflexivity|].
  inversion Hrest as [|? ? Hc' _]; subst.
  cbn [Backtest.word_goes_on]. now rewrite Hc'.
Qed.

Lemma split_nil (s : Backtest.text) :
  Backtest.split s = [] <-> Forall (fun c => Backtest.isspace c = true) s.
Proof.
  induction s as [|c rest IH]; [split; [constructor|reflexivity]|].
  cbn [Backtest.split]. destruct (Backtest.isspace c) eqn:Ec.
  - rewrite IH. split.
    + intros H. now constructor.
    + intros H. now inversion H.
  - split.
    + destruct (Backtest.word_goes_on rest);
        [destruct (Backtest.split rest)|]; discriminate.
    + intros H. inversion H; congruence.
Qed.

Lemma lower_fixed (s : Backtest.text) :
  Forall (fun c => Backtest.isupper c = false) s -> Backtest.lower s = s.
Proof.
  induction s as [|c rest IH]; intros H; [reflexivity|].
  inversion H as [|? ? Hc Hrest]; subst.
  unfold Backtest.lower in *. cbn [map].
  rewrite lower_char_fixed by exact Hc. now rewrite IH.
Qed.

Lemma lower_is_lower (s : Backtest.text) :
  Forall (fun c => Backtest.isupper c = false) (Backtest.lower s).
Proof.
  apply Forall_map. apply Forall_forall. intros c _.
  apply isupper_lower_char.
Qed.

Lemma strategy_filename_words (name : Backtest.text) (P : ascii -> Prop) :
  P "_"%char -> Forall P (Backtest.lower name) ->
  Forall P (Backtest.strategy_filename name).
Proof.
  intros Hsep H. unfold Backtest.strategy_filename.
  apply join_keeps; [repeat constructor; exact Hsep|].
  now apply split_keeps.
Qed.

Lemma strategy_filename_no_space (name : Backtest.text) :
  Forall (fun c => Backtest.isspace c = false)
         (Backtest.strategy_filename name).
Proof.
  unfold Backtest.strategy_filename.
  apply join_keeps; [repeat constructor|].
  eapply Forall_impl; [|apply split_words]. now intros word [_ H].
Qed.

Lemma strategy_filename_no_upper (name : Backtest.text) :
  Forall (fun c => Backtest.isupper c = false)
         (Backtest.strategy_filename name).
Proof.
  apply strategy_filename_words; [reflexivity|apply lower_is_lower].
Qed.

(** X12: the file name made from an ASCII strategy name holds no
    whitespace and no upper-case letter, and is ASCII. *)
Theorem strategy_filename_clean (name : Backtest.text) :
  Forall (fun c => Backtest.is_ascii c = true) name ->
  Forall (fun c => Backtest.isspace c = false /\
                   Backtest.isupper c = false /\
                   Backtest.is_ascii c = true)
         (Backtest.strategy_filename name).
Proof.
  intros Hascii.
  pose proof (strategy_filename_no_space name) as Hs.
  pose proof (strategy_filename_no_upper name) as Hu.
  assert (Ha : Forall (fun c => Backtest.is_ascii c = true)
                      (Backtest.strategy_filename name)).
  { apply strategy_filename_words; [reflexivity|].
    apply Forall_map. eapply Forall_impl; [|exact Hascii].
    intros c. apply is_ascii_lower_char. }
  rewrite Forall_forall in *. intros c Hc. auto.
Qed.

Lemma strategy_filename_clean_witness :
  Forall (fun c => Backtest.is_ascii c = true)
         (list_ascii_of_string "Super  Trend") /\
  Forall (fun c => Backtest.isspace c = false /\
                   Backtest.isupper c = false /\
                   Backtest.is_ascii c = true)
         (Backtest.strategy_filename (list_ascii_of_string "Super  Trend")).
Proof.
  assert (H : Forall (fun c => Backtest.is_ascii c = true)
                     (list_ascii_of_string "Super  Trend"))
    by (repeat constructor).
  split; [exact H|].
  apply (strategy_filename_clean (list_ascii_of_string "Super  Trend") H).
Defined.

(** X13: naming is idempotent on ASCII names: the file name of a file
    name is that file name, so a strategy whose name already is such a
    file name shares its files with every name that normalises to it. *)
Theorem strategy_filename_idempotent (name : Backtest.text) :
  Forall (fun c => Backtest.is_ascii c = true) name ->
  Backtest.strategy_filename (Backtest.strategy_filename name)
  = Backtest.strategy_filename name.
Proof.
  intros _.
  pose proof (strategy_filename_no_space name) as Hs.
  pose proof (strategy_filename_no_upper name) as Hu.
  unfold Backtest.strategy_filename at 1.
  rewrite (lower_fixed _ Hu), (split_one_word _ Hs).
  now destruct (Backtest.strategy_filename name).
Qed.

Lemma strategy_filename_idempotent_witness :
  Forall (fun c => Backtest.is_ascii c = true)
         (list_ascii_of_string "Super  Trend") /\
  Backtest.strategy_filename
    (Backtest.strategy_filename (list_ascii_of_string "Super  Trend"))
  = list_ascii_of_string "super_trend".
Proof.
  assert (H : Forall (fun c => Backtest.is_ascii c = true)
                     (list_ascii_of_string "Super  Trend"))
    by (repeat constructor).
  split; [exact H|].
  rewrite (strategy_filename_idempotent
             (list_ascii_of_string "Super  Trend") H).
  reflexivity.
Defined.

(** X14: the file name of an ASCII strategy name is empty exactly when
    the name is empty or all whitespace. *)
Theorem strategy_filename_empty (name : Backtest.text) :
  Forall (fun c => Backtest.is_ascii c = true) name ->
  (Backtest.strategy_filename name = [] <->
   Forall (fun c => Backtest.isspace c = true) name).
Proof.
  intros _. unfold Backtest.strategy_filename. split.
  - intros E. apply join_nil in E.
    + apply split_nil in E. unfold Backtest.lower in E.
      apply Forall_map in E. eapply Forall_impl; [|exact E].
      intros c Hc. rewrite <- isspace_lower_char. exact Hc.
    + eapply Forall_impl; [|apply split_words]. now intros word [H _].
  - intros H.
    assert (E : Backtest.split (Backtest.lower name) = []).
    { apply split_nil. apply Forall_map. eapply Forall_impl; [|exact H].
      intros c Hc. now rewrite isspace_lower_char. }
    now rewrite E.
Qed.

Lemma strategy_filename_empty_witness :
  Forall (fun c => Backtest.is_ascii c = true) (list_ascii_of_string "  ") /\
  Backtest.strategy_filename (list_ascii_of_string "  ") = [].
Proof.
  assert (H : Forall (fun c => Backtest.is_ascii c = true)
                     (list_ascii_of_string "  "))
    by (repeat constructor).
  split; [exact H|].
  apply (proj2 (strategy_filename_empty (list_ascii_of_string "  ") H)).
  repeat constructor.
Defined.
